(** * Notebook dashboard generator: extraction and rendering

    A shallow embedding of [notebook_dashboard.py].  The generator
    decodes a notebook (a JSON document), extracts a title, the
    markdown texts and the plot images into a content record, and
    renders the record with one of three HTML templates.

    Conventions of the embedding.
    - A Python [str] is a [string]; a character is a code point in
      the range 0..255.
    - A decoded JSON value is a [json]; a [dict] is an association
      list in insertion order with distinct keys (what [json.load]
      builds), so that iteration order is the list order.
    - A Python exception is a value of [py_error] carried by the
      [Err] constructor of [result].
    - The wall-clock timestamp printed by the default template is an
      argument of the template.
    - [while] loops take a fuel argument and return [None] when it
      runs out. *)

From Stdlib Require Import String Ascii List Bool Arith Lia DecimalString.
Import ListNotations.

Set Warnings "-register-all".

Local Open Scope list_scope.
Local Open Scope string_scope.

(** ** Characters and strings *)

Definition nl_char : ascii := "010"%char.
Definition dq_char : ascii := "034"%char.
Definition hash_char : ascii := "035"%char.

Definition nl : string := String nl_char EmptyString.
Definition dq : string := String dq_char EmptyString.

(** [str.isspace] on one character: the ASCII controls 9..13 and
    28..31, the space, and the Latin-1 code points 133 and 160. *)
Definition py_isspace (c : ascii) : bool :=
  let n := nat_of_ascii c in
  (((9 <=? n) && (n <=? 13)) || ((28 <=? n) && (n <=? 32))
   || (n =? 133) || (n =? 160))%nat.

Fixpoint lstrip (s : string) : string :=
  match s with
  | EmptyString => EmptyString
  | String c t => if py_isspace c then lstrip t else s
  end.

Fixpoint rstrip (s : string) : string :=
  match s with
  | EmptyString => EmptyString
  | String c t =>
      match rstrip t with
      | EmptyString => if py_isspace c then EmptyString else String c EmptyString
      | t' => String c t'
      end
  end.

(** [s.strip()] *)
Definition strip (s : string) : string := rstrip (lstrip s).

(** Truth value of a [str]: false exactly for the empty string. *)
Definition str_truthy (s : string) : bool :=
  match s with
  | EmptyString => false
  | String _ _ => true
  end.

(** [sep.join(parts)] *)
Fixpoint join (sep : string) (parts : list string) : string :=
  match parts with
  | [] => EmptyString
  | [p] => p
  | p :: rest => p ++ sep ++ join sep rest
  end.

(** [needle in hay] for two strings. *)
Fixpoint is_substring (needle hay : string) : bool :=
  String.prefix needle hay ||
  match hay with
  | EmptyString => false
  | String _ t => is_substring needle t
  end.

(** [hay] contains [needle]: the declarative reading. *)
Definition contains (hay needle : string) : Prop :=
  exists before after, hay = before ++ needle ++ after.

(** [s.replace(old, new)] for a non-empty [old]: leftmost
    non-overlapping occurrences.  [skip] counts the characters of an
    occurrence still to be dropped. *)
Fixpoint replace_from (old new : string) (skip : nat) (s : string) : string :=
  match s with
  | EmptyString => EmptyString
  | String c t =>
      match skip with
      | S k => replace_from old new k t
      | O =>
          if String.prefix old s
          then new ++ replace_from old new (String.length old - 1) t
          else String c (replace_from old new 0 t)
      end
  end.

Definition replace (old new s : string) : string := replace_from old new 0 s.

(** ** Exceptions *)

Inductive py_error : Type :=
| OSError
| UnicodeDecodeError
| JSONDecodeError
| KeyError
| TypeError
| AttributeError.

Inductive result (A : Type) : Type :=
| Ok (a : A)
| Err (e : py_error).

Arguments Ok {A} a.
Arguments Err {A} e.

Definition bind {A B : Type} (r : result A) (f : A -> result B) : result B :=
  match r with
  | Ok a => f a
  | Err e => Err e
  end.

Notation "x <- r ;; k" := (bind r (fun x => k))
  (at level 61, r at next level, right associativity).

(** ** Decoded JSON values *)

Inductive json : Type :=
| JNull
| JBool (b : bool)
| JNum (literal : string)
| JStr (s : string)
| JArr (items : list json)
| JObj (fields : list (string * json)).

Fixpoint dict_get (key : string) (fields : list (string * json)) : option json :=
  match fields with
  | [] => None
  | (k, v) :: rest => if String.eqb k key then Some v else dict_get key rest
  end.

(** [value == text] for a string literal [text]. *)
Definition json_is_str (value : json) (text : string) : bool :=
  match value with
  | JStr s => String.eqb s text
  | _ => false
  end.

(** [obj.get(key, default)]: only a dict has the method. *)
Definition py_get (obj : json) (key : string) (default : json) : result json :=
  match obj with
  | JObj fields =>
      match dict_get key fields with
      | Some v => Ok v
      | None => Ok default
      end
  | _ => Err AttributeError
  end.

(** [obj[key]] for a string key. *)
Definition py_getitem (obj : json) (key : string) : result json :=
  match obj with
  | JObj fields =>
      match dict_get key fields with
      | Some v => Ok v
      | None => Err KeyError
      end
  | _ => Err TypeError
  end.

Fixpoint chars_of (s : string) : list json :=
  match s with
  | EmptyString => []
  | String c t => JStr (String c EmptyString) :: chars_of t
  end.

(** The items a [for] loop sees: the elements of a list, the keys of
    a dict, the characters of a string. *)
Definition py_iter (v : json) : result (list json) :=
  match v with
  | JArr items => Ok items
  | JObj fields => Ok (map (fun kv => JStr (fst kv)) fields)
  | JStr s => Ok (chars_of s)
  | _ => Err TypeError
  end.

Fixpoint join_items (items : list json) : result string :=
  match items with
  | [] => Ok EmptyString
  | JStr s :: rest => t <- join_items rest ;; Ok (s ++ t)
  | _ :: _ => Err TypeError
  end.

(** [''.join(v)] *)
Definition py_join (v : json) : result string :=
  items <- py_iter v ;; join_items items.

(** [key in container] for a string [key]. *)
Definition py_contains (key : string) (container : json) : result bool :=
  match container with
  | JObj fields =>
      Ok (match dict_get key fields with Some _ => true | None => false end)
  | JArr items => Ok (existsb (fun v => json_is_str v key) items)
  | JStr s => Ok (is_substring key s)
  | _ => Err TypeError
  end.

(** [str(v)] for a value that is not a [str]: the text Python prints
    for a number, a dict, [None] and so on. *)
Class PyRuntime : Type := py_repr : json -> string.

(** ** Regular expressions: the fragment of [re] the generator uses

    A backtracking matcher in continuation-passing style, with
    Python's priorities: a greedy [+] tries one more repetition before
    it tries the rest of the pattern, a lazy [+?] the other way round. *)

Inductive regex : Type :=
| Eps
| Bol
| Eol
| Chr (c : ascii)
| Dot (dotall : bool)
| Space
| Cat (r1 r2 : regex)
| Plus (greedy : bool) (r : regex)
| Group (r : regex).

Infix "+++" := Cat (right associativity, at level 60).

(** The literal text [s] as a pattern. *)
Fixpoint lit (s : string) : regex :=
  match s with
  | EmptyString => Eps
  | String c EmptyString => Chr c
  | String c t => Chr c +++ lit t
  end.

(** A position of the matcher: the character before it, the text
    after it, the characters consumed since group 1 was opened (last
    one first), and the text of group 1 once it is closed. *)
Record mstate : Type := MState {
  prev : option ascii;
  rest : string;
  cap : list ascii;
  group1 : option string
}.

(** [^] under [re.MULTILINE]: at the start of the text and after
    every newline. *)
Definition at_bol (p : option ascii) : bool :=
  match p with
  | None => true
  | Some c => Ascii.eqb c nl_char
  end.

(** [$] under [re.MULTILINE]: at the end of the text and before
    every newline. *)
Definition at_eol (s : string) : bool :=
  match s with
  | EmptyString => true
  | String c _ => Ascii.eqb c nl_char
  end.

Definition eat (ok : ascii -> bool) (st : mstate)
    (k : mstate -> option mstate) : option mstate :=
  match rest st with
  | EmptyString => None
  | String c t =>
      if ok c
      then k (MState (Some c) t (c :: cap st) (group1 st))
      else None
  end.

(** [.] matches everything but a newline, and a newline too under
    [re.DOTALL]. *)
Definition dot_ok (dotall : bool) (c : ascii) : bool :=
  dotall || negb (Ascii.eqb c nl_char).

Definition open_group (st : mstate) : mstate :=
  MState (prev st) (rest st) [] (group1 st).

Definition close_group (st : mstate) : mstate :=
  MState (prev st) (rest st) (cap st)
         (Some (string_of_list_ascii (rev (cap st)))).

(** One or more repetitions of the matcher [one], then [k].  Every
    repetition consumes a character, so the length of the text bounds
    their number. *)
Fixpoint plus_loop (one : mstate -> (mstate -> option mstate) -> option mstate)
    (greedy : bool) (k : mstate -> option mstate) (fuel : nat) (st : mstate)
    : option mstate :=
  match fuel with
  | O => None
  | S fuel' =>
      one st (fun st1 =>
        if greedy
        then match plus_loop one greedy k fuel' st1 with
             | Some m => Some m
             | None => k st1
             end
        else match k st1 with
             | Some m => Some m
             | None => plus_loop one greedy k fuel' st1
             end)
  end.

Fixpoint rmatch (r : regex) (st : mstate)
    (k : mstate -> option mstate) {struct r} : option mstate :=
  match r with
  | Eps => k st
  | Bol => if at_bol (prev st) then k st else None
  | Eol => if at_eol (rest st) then k st else None
  | Chr c => eat (Ascii.eqb c) st k
  | Dot dotall => eat (dot_ok dotall) st k
  | Space => eat py_isspace st k
  | Cat r1 r2 => rmatch r1 st (fun st1 => rmatch r2 st1 k)
  | Plus greedy r1 =>
      plus_loop (rmatch r1) greedy k (S (String.length (rest st))) st
  | Group r1 => rmatch r1 (open_group st) (fun st1 => k (close_group st1))
  end.

(** A match of [r] that starts exactly at the position [(p, s)]. *)
Definition match_at (r : regex) (p : option ascii) (s : string) : option mstate :=
  rmatch r (MState p s [] None) Some.

(** [m.group(1)] *)
Definition group (m : mstate) : string :=
  match group1 m with
  | Some g => g
  | None => EmptyString
  end.

Fixpoint search_from (r : regex) (p : option ascii) (s : string) : option mstate :=
  match match_at r p s with
  | Some m => Some m
  | None =>
      match s with
      | EmptyString => None
      | String c t => search_from r (Some c) t
      end
  end.

(** [re.search(r, s)]: the leftmost match. *)
Definition re_search (r : regex) (s : string) : option mstate :=
  search_from r None s.

(** [re.sub(r, repl, s)] for a pattern that never matches the empty
    text: leftmost matches, each replaced by [repl] of its group 1,
    the scan resuming where the match ended. *)
Fixpoint sub_from (r : regex) (repl : string -> string) (fuel : nat)
    (p : option ascii) (s : string) : string :=
  match fuel with
  | O => s
  | S fuel' =>
      match match_at r p s with
      | Some m => repl (group m) ++ sub_from r repl fuel' (prev m) (rest m)
      | None =>
          match s with
          | EmptyString => EmptyString
          | String c t => String c (sub_from r repl fuel' (Some c) t)
          end
      end
  end.

Definition re_sub (r : regex) (repl : string -> string) (s : string) : string :=
  sub_from r repl (S (String.length s)) None s.

(** ** Markdown to HTML *)

Definition any_line : regex := Group (Plus true (Dot false)).
Definition lazy_span (dotall : bool) : regex := Group (Plus false (Dot dotall)).

(** [^### (.+)$], [^## (.+)$], [^# (.+)$] *)
Definition h3_re : regex := Bol +++ lit "### " +++ any_line +++ Eol.
Definition h2_re : regex := Bol +++ lit "## " +++ any_line +++ Eol.
Definition h1_re : regex := Bol +++ lit "# " +++ any_line +++ Eol.
(** [\*\*(.+?)\*\*] and [\*(.+?)\*] *)
Definition bold_re : regex := lit "**" +++ lazy_span false +++ lit "**".
Definition italic_re : regex := lit "*" +++ lazy_span false +++ lit "*".
(** Three backticks, [(.+?)] under [re.DOTALL], three backticks; and
    one backtick, [(.+?)], one backtick. *)
Definition fence_re : regex := lit "```" +++ lazy_span true +++ lit "```".
Definition code_re : regex := lit "`" +++ lazy_span false +++ lit "`".

Definition tag (name : string) (body : string) : string :=
  "<" ++ name ++ ">" ++ body ++ "</" ++ name ++ ">".

Definition _markdown_to_html (markdown : string) : string :=
  let html := markdown in
  let html := re_sub h3_re (tag "h3") html in
  let html := re_sub h2_re (tag "h2") html in
  let html := re_sub h1_re (tag "h1") html in
  let html := re_sub bold_re (tag "strong") html in
  let html := re_sub italic_re (tag "em") html in
  let html := re_sub fence_re (fun g => "<pre><code>" ++ g ++ "</code></pre>") html in
  let html := re_sub code_re (tag "code") html in
  let html := replace (nl ++ nl) "</p><p>" html in
  "<p>" ++ html ++ "</p>".

(** ** The content record *)

Record plot : Type := Plot {
  mime_type : string;
  data : json;
  plot_metadata : json
}.

Record content : Type := Content {
  title : string;
  plots : list plot;
  markdown : list string;
  metadata : json
}.

(** ** Extraction *)

(** [^#\s+(.+)$] under [re.MULTILINE] *)
Definition title_re : regex :=
  Bol +++ lit "#" +++ Plus true Space +++ any_line +++ Eol.

Fixpoint title_loop (cells : list json) : result string :=
  match cells with
  | [] => Ok "Dashboard"
  | cell :: more =>
      cell_type <- py_getitem cell "cell_type" ;;
      if json_is_str cell_type "markdown"
      then
        src <- py_get cell "source" (JArr []) ;;
        source <- py_join src ;;
        match re_search title_re source with
        | Some h1_match => Ok (strip (group h1_match))
        | None => title_loop more
        end
      else title_loop more
  end.

Definition _extract_title (notebook : json) : result string :=
  cells <- py_get notebook "cells" (JArr []) ;;
  items <- py_iter cells ;;
  title_loop items.

(** The text of a payload or of a cell source: the fragments of a
    list joined with no separator, a [str] as it is, anything else
    through [str()]. *)
Definition text_of `{rt : PyRuntime} (v : json) : result string :=
  match v with
  | JArr _ => py_join v
  | JStr s => Ok s
  | other => Ok (py_repr other)
  end.

Definition _process_markdown_cell `{rt : PyRuntime} (cell : json) : result string :=
  source <- py_get cell "source" (JArr []) ;;
  text_of source.

Definition mime_types : list string :=
  ["image/png"; "image/jpeg"; "image/svg+xml"].

Fixpoint scan_mime_types (output data : json) (mimes : list string)
    : result (list plot) :=
  match mimes with
  | [] => Ok []
  | mime :: more =>
      present <- py_contains mime data ;;
      if (present : bool)
      then
        payload <- py_getitem data mime ;;
        meta <- py_get output "metadata" (JObj []) ;;
        later <- scan_mime_types output data more ;;
        Ok (Plot mime payload meta :: later)
      else scan_mime_types output data more
  end.

Definition wanted_kind (kind : json) : bool :=
  json_is_str kind "display_data" || json_is_str kind "execute_result".

Fixpoint outputs_loop (outputs : list json) : result (list plot) :=
  match outputs with
  | [] => Ok []
  | output :: more =>
      kind <- py_get output "output_type" JNull ;;
      found <- (if wanted_kind kind
                then d <- py_get output "data" (JObj []) ;;
                     scan_mime_types output d mime_types
                else Ok []) ;;
      later <- outputs_loop more ;;
      Ok (found ++ later)%list
  end.

Definition _extract_plots_from_cell (cell : json) : result (list plot) :=
  outputs <- py_get cell "outputs" (JArr []) ;;
  items <- py_iter outputs ;;
  outputs_loop items.

(** The loop over the cells, with the two lists it appends to. *)
Fixpoint cells_loop `{rt : PyRuntime} (cells : list json)
    (found_plots : list plot) (found_markdown : list string)
    : result (list plot * list string) :=
  match cells with
  | [] => Ok (found_plots, found_markdown)
  | cell :: more =>
      cell_type <- py_getitem cell "cell_type" ;;
      if json_is_str cell_type "markdown"
      then
        markdown_text <- _process_markdown_cell cell ;;
        if str_truthy (strip markdown_text)
        then cells_loop more found_plots (found_markdown ++ [markdown_text])%list
        else cells_loop more found_plots found_markdown
      else if json_is_str cell_type "code"
      then
        new_plots <- _extract_plots_from_cell cell ;;
        cells_loop more (found_plots ++ new_plots)%list found_markdown
      else cells_loop more found_plots found_markdown
  end.

(** What [open] and [json.load] deliver: an exception, or the
    decoded notebook. *)
Inductive loaded : Type :=
| LoadFailed (e : py_error)
| Loaded (notebook : json).

Definition parse_notebook `{rt : PyRuntime} (file : loaded) : result content :=
  match file with
  | LoadFailed e => Err e
  | Loaded notebook =>
      the_title <- _extract_title notebook ;;
      meta <- py_get notebook "metadata" (JObj []) ;;
      cells <- py_get notebook "cells" (JArr []) ;;
      items <- py_iter cells ;;
      lists <- cells_loop items [] [] ;;
      Ok (Content the_title (fst lists) (snd lists) meta)
  end.

(** ** Pairing for the default template *)

Definition pair : Type := (option string * list plot)%type.

Record pair_state : Type := PairState {
  md_idx : nat;
  plot_idx : nat;
  pairs : list pair
}.

Definition pair_continue (markdown_items : list string) (plot_items : list plot)
    (st : pair_state) : bool :=
  (md_idx st <? length markdown_items)%nat || (plot_idx st <? length plot_items)%nat.

Definition md_truthy (current_md : option string) : bool :=
  match current_md with
  | Some s => str_truthy s
  | None => false
  end.

(** One turn of the [while] loop. *)
Definition pair_step (markdown_items : list string) (plot_items : list plot)
    (st : pair_state) : pair_state :=
  let current_md :=
    if (md_idx st <? length markdown_items)%nat
    then nth_error markdown_items (md_idx st)
    else None in
  let current_plots :=
    if (plot_idx st <? length plot_items)%nat
    then match nth_error plot_items (plot_idx st) with
         | Some p => [p]
         | None => []
         end
    else [] in
  let plot_idx' :=
    if (plot_idx st <? length plot_items)%nat
    then S (plot_idx st) else plot_idx st in
  let md_idx' := if md_truthy current_md then S (md_idx st) else md_idx st in
  PairState md_idx' plot_idx' (pairs st ++ [(current_md, current_plots)])%list.

Fixpoint pair_loop (fuel : nat) (markdown_items : list string)
    (plot_items : list plot) (st : pair_state) : option (list pair) :=
  match fuel with
  | O => None
  | S fuel' =>
      if pair_continue markdown_items plot_items st
      then pair_loop fuel' markdown_items plot_items
                     (pair_step markdown_items plot_items st)
      else Some (pairs st)
  end.

Definition _pair_content (fuel : nat) (c : content) : option (list pair) :=
  pair_loop fuel (markdown c) (plots c) (PairState 0 0 []).

(** ** Plots to HTML *)

Definition _plot_to_html `{rt : PyRuntime} (p : plot) : result string :=
  if String.eqb (mime_type p) "image/svg+xml"
  then
    text <- text_of (data p) ;;
    Ok ("<div class=" ++ dq ++ "plot-svg" ++ dq ++ ">" ++ text ++ "</div>")
  else
    text <- text_of (data p) ;;
    Ok ("<img src=" ++ dq ++ "data:" ++ mime_type p ++ ";base64," ++ text ++ dq
        ++ " alt=" ++ dq ++ "Plot" ++ dq
        ++ " class=" ++ dq ++ "plot-image" ++ dq ++ ">").

(** ** Stylesheets *)

Definition _get_default_css : string := "
        body {
            font-family: 'Segoe UI', Tahoma, Geneva, Verdana, sans-serif;
            line-height: 1.6;
            margin: 0;
            padding: 0;
            background-color: #f5f5f5;
        }
        .container {
            max-width: 1200px;
            margin: 0 auto;
            padding: 20px;
            background-color: white;
            box-shadow: 0 0 10px rgba(0,0,0,0.1);
        }
        .main-title {
            color: #333;
            border-bottom: 3px solid #007acc;
            padding-bottom: 10px;
            margin-bottom: 30px;
        }
        .generated-info {
            color: #666;
            font-style: italic;
            margin-bottom: 30px;
        }
        .section {
            margin-bottom: 40px;
            padding: 20px;
            border-left: 4px solid #007acc;
            background-color: #fafafa;
        }
        .markdown-content {
            margin-bottom: 20px;
        }
        .plots-container {
            display: flex;
            flex-wrap: wrap;
            gap: 20px;
            justify-content: center;
        }
        .plot-image, .plot-svg {
            max-width: 100%;
            height: auto;
            border: 1px solid #ddd;
            border-radius: 5px;
            box-shadow: 0 2px 5px rgba(0,0,0,0.1);
        }
        h1, h2, h3 { color: #333; }
        code {
            background-color: #f0f0f0;
            padding: 2px 4px;
            border-radius: 3px;
            font-family: 'Courier New', monospace;
        }
        pre {
            background-color: #f0f0f0;
            padding: 10px;
            border-radius: 5px;
            overflow-x: auto;
        }
        ".

Definition _get_minimal_css : string := "
        body {
            font-family: Arial, sans-serif;
            margin: 20px;
            line-height: 1.5;
        }
        .content, .plot {
            margin-bottom: 20px;
        }
        .plot-image, .plot-svg {
            max-width: 100%;
            height: auto;
        }
        ".

Definition _get_grid_css : string := "
        body {
            font-family: 'Segoe UI', Tahoma, Geneva, Verdana, sans-serif;
            margin: 0;
            padding: 20px;
            background: linear-gradient(135deg, #667eea 0%, #764ba2 100%);
            min-height: 100vh;
        }
        .grid-container {
            display: grid;
            grid-template-columns: repeat(auto-fit, minmax(300px, 1fr));
            gap: 20px;
            max-width: 1400px;
            margin: 0 auto;
        }
        .header {
            grid-column: 1 / -1;
            text-align: center;
            color: white;
            margin-bottom: 20px;
            font-size: 2.5em;
            text-shadow: 2px 2px 4px rgba(0,0,0,0.3);
        }
        .grid-item {
            background: white;
            padding: 20px;
            border-radius: 10px;
            box-shadow: 0 4px 15px rgba(0,0,0,0.1);
            transition: transform 0.3s ease;
        }
        .grid-item:hover {
            transform: translateY(-5px);
        }
        .plot-item {
            display: flex;
            justify-content: center;
            align-items: center;
        }
        .plot-image, .plot-svg {
            max-width: 100%;
            height: auto;
            border-radius: 5px;
        }
        ".

(** ** Templates *)

(** [str(i)] for a natural number. *)
Definition str_of_nat (i : nat) : string :=
  DecimalString.NilEmpty.string_of_uint (Nat.to_uint i).

Fixpoint plots_to_html `{rt : PyRuntime} (wrap : string -> string)
    (items : list plot) : result (list string) :=
  match items with
  | [] => Ok []
  | p :: more =>
      h <- _plot_to_html p ;;
      later <- plots_to_html wrap more ;;
      Ok (wrap h :: later)
  end.

(** The lines one pair adds to the page. *)
Definition section_parts `{rt : PyRuntime} (i : nat) (entry : pair)
    : result (list string) :=
  let (md, section_plots) := entry in
  let opening := "        <div class='section' id='section-" ++ str_of_nat i ++ "'>" in
  let md_parts :=
    match md with
    | Some text =>
        if str_truthy text
        then ["            <div class='markdown-content'>";
              "                " ++ _markdown_to_html text;
              "            </div>"]
        else []
    | None => []
    end in
  plot_parts <-
    match section_plots with
    | [] => Ok []
    | _ :: _ =>
        imgs <- plots_to_html (fun h => h) section_plots ;;
        Ok (["            <div class='plots-container'>"] ++ imgs
            ++ ["            </div>"])%list
    end ;;
  Ok ([opening] ++ md_parts ++ plot_parts ++ ["        </div>"])%list.

Fixpoint sections `{rt : PyRuntime} (i : nat) (entries : list pair)
    : result (list string) :=
  match entries with
  | [] => Ok []
  | entry :: more =>
      here <- section_parts i entry ;;
      later <- sections (S i) more ;;
      Ok (here ++ later)%list
  end.

Definition default_head (now : string) (c : content) : list string :=
  ["<!DOCTYPE html>";
   "<html lang='en'>";
   "<head>";
   "    <meta charset='UTF-8'>";
   "    <meta name='viewport' content='width=device-width, initial-scale=1.0'>";
   "    <title>" ++ title c ++ "</title>";
   "    <style>";
   _get_default_css;
   "    </style>";
   "</head>";
   "<body>";
   "    <div class='container'>";
   "        <h1 class='main-title'>" ++ title c ++ "</h1>";
   "        <p class='generated-info'>Generated on " ++ now ++ "</p>"].

Definition default_foot : list string :=
  ["    </div>"; "</body>"; "</html>"].

(** The lines of the default page; [now] is the formatted time of
    the rendering, [None] a pairing that ran out of fuel. *)
Definition default_parts `{rt : PyRuntime} (fuel : nat) (now : string) (c : content)
    : option (result (list string)) :=
  match _pair_content fuel c with
  | None => None
  | Some entries =>
      Some (body <- sections 0 entries ;;
            Ok (default_head now c ++ body ++ default_foot)%list)
  end.

Definition render_parts (parts : option (result (list string)))
    : option (result string) :=
  match parts with
  | None => None
  | Some r => Some (html_parts <- r ;; Ok (join nl html_parts))
  end.

Definition _default_template `{rt : PyRuntime} (fuel : nat) (now : string)
    (c : content) : option (result string) :=
  render_parts (default_parts fuel now c).

Definition minimal_head (c : content) : list string :=
  ["<!DOCTYPE html>";
   "<html lang='en'>";
   "<head>";
   "    <meta charset='UTF-8'>";
   "    <meta name='viewport' content='width=device-width, initial-scale=1.0'>";
   "    <title>" ++ title c ++ "</title>";
   "    <style>";
   _get_minimal_css;
   "    </style>";
   "</head>";
   "<body>";
   "    <h1>" ++ title c ++ "</h1>"].

Definition minimal_parts `{rt : PyRuntime} (c : content) : result (list string) :=
  let texts :=
    map (fun md => "    <div class='content'>" ++ _markdown_to_html md ++ "</div>")
        (markdown c) in
  imgs <- plots_to_html (fun h => "    <div class='plot'>" ++ h ++ "</div>")
                        (plots c) ;;
  Ok (minimal_head c ++ texts ++ imgs ++ ["</body>"; "</html>"])%list.

Definition _minimal_template `{rt : PyRuntime} (c : content) : option (result string) :=
  render_parts (Some (minimal_parts c)).

Definition grid_head (c : content) : list string :=
  ["<!DOCTYPE html>";
   "<html lang='en'>";
   "<head>";
   "    <meta charset='UTF-8'>";
   "    <meta name='viewport' content='width=device-width, initial-scale=1.0'>";
   "    <title>" ++ title c ++ "</title>";
   "    <style>";
   _get_grid_css;
   "    </style>";
   "</head>";
   "<body>";
   "    <div class='grid-container'>";
   "        <h1 class='header'>" ++ title c ++ "</h1>"].

Definition grid_parts `{rt : PyRuntime} (c : content) : result (list string) :=
  let texts :=
    map (fun md => "        <div class='grid-item text-item'>"
                   ++ _markdown_to_html md ++ "</div>")
        (filter (fun md => str_truthy (strip md)) (markdown c)) in
  imgs <- plots_to_html
            (fun h => "        <div class='grid-item plot-item'>" ++ h ++ "</div>")
            (plots c) ;;
  Ok (grid_head c ++ texts ++ imgs ++ ["    </div>"; "</body>"; "</html>"])%list.

Definition _grid_template `{rt : PyRuntime} (c : content) : option (result string) :=
  render_parts (Some (grid_parts c)).

Definition _create_html_template `{rt : PyRuntime} (fuel : nat) (now : string)
    (c : content) (template : string) : option (result string) :=
  if String.eqb template "minimal" then _minimal_template c
  else if String.eqb template "grid" then _grid_template c
  else _default_template fuel now c.

(** * Properties *)

(** ** Pairing *)

Definition drain_plots (ps : list plot) : list pair :=
  map (fun p => (None, [p])) ps.

Definition leftover_markdown (ms : list string) : list pair :=
  map (fun m => (Some m, [])) ms.

(** The pairing as the specification words it: walk the two lists in
    parallel, one markdown text and one plot per step; when the
    markdown runs out every further step drains one plot, when the
    plots run out every further step carries one markdown text alone. *)
Fixpoint pairing_spec (ms : list string) (ps : list plot) : list pair :=
  match ms, ps with
  | [], _ => drain_plots ps
  | _, [] => leftover_markdown ms
  | m :: ms', p :: ps' => (Some m, [p]) :: pairing_spec ms' ps'
  end.

Definition all_truthy (ms : list string) : Prop :=
  Forall (fun s => str_truthy s = true) ms.

(** ** Plot extraction, as the specification words it *)

Definition or_default (default : json) (found : option json) : json :=
  match found with
  | Some v => v
  | None => default
  end.

(** The plots of one Output: none unless its kind is display_data or
    execute_result; otherwise one plot per supported MIME type present
    in its data mapping, in the fixed scan order, each with the
    payload found there and the metadata of the Output. *)
Definition output_plots (output : json) : list plot :=
  match output with
  | JObj fields =>
      if wanted_kind (or_default JNull (dict_get "output_type" fields))
      then
        match dict_get "data" fields with
        | Some (JObj d) =>
            flat_map
              (fun mime =>
                 match dict_get mime d with
                 | Some payload =>
                     [Plot mime payload
                           (or_default (JObj []) (dict_get "metadata" fields))]
                 | None => []
                 end)
              mime_types
        | _ => []
        end
      else []
  | _ => []
  end.

(** An Output as the data model has it: an object whose data, when
    the extraction looks at it, is a mapping (or is absent). *)
Definition output_shaped (output : json) : Prop :=
  exists fields,
    output = JObj fields
    /\ (wanted_kind (or_default JNull (dict_get "output_type" fields)) = true ->
        dict_get "data" fields = None
        \/ exists d, dict_get "data" fields = Some (JObj d)).

(** ** Markdown filtering *)

(** A text that is not blank: something is left after trimming. *)
Definition not_blank (text : string) : Prop := strip text <> EmptyString.

(** A runtime to evaluate examples with. *)
Definition sample_runtime : PyRuntime := fun _ => "<object>".

(** ** Rendering *)

(** The fragments of a payload, joined with no separator. *)
Definition concat_all (fragments : list string) : string :=
  fold_right String.append EmptyString fragments.

(** How the lines of a content section, of a content or plot div, of
    a grid tile and of a rendered plot begin. *)
Definition content_markers : list string :=
  ["<div class='section'";
   "<div class='markdown-content'";
   "<div class='plots-container'";
   "<div class='content'";
   "<div class='plot'";
   "<div class='grid-item";
   "<div class=" ++ dq ++ "plot-svg";
   "<img"].

Definition is_content_line (line : string) : bool :=
  existsb (fun marker => String.prefix marker (lstrip line)) content_markers.

(** The document of the smoke test: one markdown cell and one code
    cell whose Output, of the given kind, carries a PNG payload. *)
Definition smoke_notebook (kind : string) : json :=
  JObj [("cells",
         JArr [JObj [("cell_type", JStr "markdown");
                     ("source", JStr ("# T" ++ nl ++ nl ++ "Hello **world**"))];
               JObj [("cell_type", JStr "code");
                     ("outputs",
                      JArr [JObj [("output_type", JStr kind);
                                  ("data", JObj [("image/png", JStr "AAAA")])]])]])].

(** ** Title resolution, as the specification words it *)

(** What the title scan reads in a cell: the concatenated source of a
    markdown cell, or nothing for a cell of another type. *)
Inductive cell_view : Type :=
| MarkdownCell (source : string)
| OtherCell.

Definition reads_as (cell : json) (view : cell_view) : Prop :=
  exists fields cell_type,
    cell = JObj fields
    /\ dict_get "cell_type" fields = Some cell_type
    /\ match view with
       | MarkdownCell source =>
           json_is_str cell_type "markdown" = true
           /\ py_join (or_default (JArr []) (dict_get "source" fields)) = Ok source
       | OtherCell => json_is_str cell_type "markdown" = false
       end.

(** The trimmed group of the first match in the first markdown cell
    that has one; the literal Dashboard when there is none. *)
Fixpoint title_of (views : list cell_view) : string :=
  match views with
  | [] => "Dashboard"
  | MarkdownCell source :: more =>
      match re_search title_re source with
      | Some found => strip (group found)
      | None => title_of more
      end
  | OtherCell :: more => title_of more
  end.

(** The character before the end of [s], [p] being the one before
    its start. *)
Fixpoint last_of (p : option ascii) (s : string) : option ascii :=
  match s with
  | EmptyString => p
  | String c t => last_of (Some c) t
  end.

(** No line of [s] begins with the heading mark; [p] is the character
    before [s]. *)
Fixpoint no_heading_start (p : option ascii) (s : string) : bool :=
  match s with
  | EmptyString => true
  | String c t =>
      negb (at_bol p && Ascii.eqb hash_char c) && no_heading_start (Some c) t
  end.

(** The text between [before] and [after] stands on a line of its
    own: [before] ends a line (or is empty) and [after] starts with a
    line break (or is empty). *)
Definition own_line (before after : string) : Prop :=
  at_bol (last_of None before) = true /\ at_eol after = true.

(** A notebook with one markdown cell. *)
Definition markdown_notebook (source : string) : json :=
  JObj [("cells",
         JArr [JObj [("cell_type", JStr "markdown"); ("source", JStr source)]])].

(** ** The expected shape of a document *)

(** A source: absent, a string, or a sequence of strings. *)
Definition source_shaped (fields : list (string * json)) : Prop :=
  dict_get "source" fields = None
  \/ (exists s, dict_get "source" fields = Some (JStr s))
  \/ (exists fragments, dict_get "source" fields = Some (JArr (map JStr fragments))).

(** The outputs of a code cell: absent, or a sequence of Outputs. *)
Definition outputs_shaped (fields : list (string * json)) : Prop :=
  dict_get "outputs" fields = None
  \/ (exists outputs,
        dict_get "outputs" fields = Some (JArr outputs)
        /\ Forall output_shaped outputs).

(** A cell: an object tagged markdown, with a source, or tagged code,
    with outputs. *)
Definition cell_shaped (cell : json) : Prop :=
  exists fields,
    cell = JObj fields
    /\ ((dict_get "cell_type" fields = Some (JStr "markdown")
         /\ source_shaped fields)
        \/ (dict_get "cell_type" fields = Some (JStr "code")
            /\ outputs_shaped fields)).

(** A document: an object whose cells, when present, are a sequence
    of cells. *)
Definition document_shaped (notebook : json) : Prop :=
  exists fields,
    notebook = JObj fields
    /\ (dict_get "cells" fields = None
        \/ (exists cells,
              dict_get "cells" fields = Some (JArr cells)
              /\ Forall cell_shaped cells)).

(** ** Markdown to HTML, as the specification words it *)

Definition rewrite_h3 : string -> string := re_sub h3_re (tag "h3").
Definition rewrite_h2 : string -> string := re_sub h2_re (tag "h2").
Definition rewrite_h1 : string -> string := re_sub h1_re (tag "h1").
Definition rewrite_bold : string -> string := re_sub bold_re (tag "strong").
Definition rewrite_italic : string -> string := re_sub italic_re (tag "em").
Definition rewrite_fence : string -> string :=
  re_sub fence_re (fun g => "<pre><code>" ++ g ++ "</code></pre>").
Definition rewrite_code : string -> string := re_sub code_re (tag "code").
Definition rewrite_paragraphs : string -> string :=
  replace (nl ++ nl) "</p><p>".

(** The rewrites in the order of the specification. *)
Definition markdown_rewrites : list (string -> string) :=
  [rewrite_h3; rewrite_h2; rewrite_h1;
   rewrite_bold; rewrite_italic;
   rewrite_fence; rewrite_code;
   rewrite_paragraphs].

(** Each rewrite runs over the whole text the previous one produced. *)
Definition apply_rewrites (rewrites : list (string -> string)) (text : string)
    : string :=
  fold_left (fun t rewrite => rewrite t) rewrites text.

Definition markdownToHtml (text : string) : string :=
  "<p>" ++ apply_rewrites markdown_rewrites text ++ "</p>".

(** ** Heading rewrites, line by line *)

Fixpoint newline_free (s : string) : bool :=
  match s with
  | EmptyString => true
  | String c t => negb (Ascii.eqb c nl_char) && newline_free t
  end.

(** What is left of [s] after its prefix [pre], when it has it. *)
Fixpoint strip_prefix (pre s : string) : option string :=
  match pre with
  | EmptyString => Some s
  | String c t =>
      match s with
      | EmptyString => None
      | String c' r => if Ascii.eqb c c' then strip_prefix t r else None
      end
  end.

(** The characters of [s] pushed on [chars], last one first. *)
Fixpoint push_chars (s : string) (chars : list ascii) : list ascii :=
  match s with
  | EmptyString => chars
  | String c t => push_chars t (c :: chars)
  end.

(** A line that begins with the heading mark [pre] followed by some
    text becomes that text inside the element [name]; any other line
    stays as it is. *)
Definition heading_line (pre name line : string) : string :=
  match strip_prefix pre line with
  | Some (String c body) => tag name (String c body)
  | _ => line
  end.

(** The text after the first of several lines: every further line
    preceded by a newline. *)
Fixpoint tail_text (lines : list string) : string :=
  match lines with
  | [] => EmptyString
  | l :: more => nl ++ l ++ tail_text more
  end.

(** The pattern of a heading rewrite: the mark [pre] at the start of
    a line, then the rest of the line as group 1. *)
Definition line_re (pre : string) : regex :=
  Bol +++ lit pre +++ any_line +++ Eol.

(** ** Writing the page and the command line

    The file system and the console are explicit: [world] answers the
    questions the program asks (does the path exist, what does loading
    it give, can the output be opened for writing, what is the message
    of an exception), and a run returns the events it performed, in
    order.  A failure while the opened file is being written is not
    modelled: writing is one event. *)

Record world : Type := World {
  path_exists : string -> bool;
  load_json : string -> loaded;
  open_for_write : string -> option py_error;
  str_of_error : py_error -> string
}.

Inductive event : Type :=
| Printed (line : string)
| Written (path : string) (text : string).

(** The parsed command line: [args.notebook], [args.output] and
    [args.template]. *)
Record args : Type := Args {
  arg_notebook : string;
  arg_output : string;
  arg_template : string
}.

Definition generate_html_dashboard `{rt : PyRuntime} (w : world) (fuel : nat)
    (now : string) (c : content) (output_path template : string)
    : option (result (list event)) :=
  match _create_html_template fuel now c template with
  | None => None
  | Some (Err e) => Some (Err e)
  | Some (Ok html_content) =>
      match open_for_write w output_path with
      | Some e => Some (Err e)
      | None =>
          Some (Ok [Written output_path html_content;
                    Printed ("Dashboard generated: " ++ output_path)])
      end
  end.

Definition error_line (w : world) (e : py_error) : event :=
  Printed ("Error generating dashboard: " ++ str_of_error w e).

Definition main `{rt : PyRuntime} (w : world) (fuel : nat) (now : string)
    (a : args) : option (list event) :=
  if negb (path_exists w (arg_notebook a))
  then Some [Printed ("Error: Notebook file '" ++ arg_notebook a ++ "' not found")]
  else
    let started := [Printed ("Parsing notebook: " ++ arg_notebook a)] in
    match parse_notebook (load_json w (arg_notebook a)) with
    | Err e => Some (started ++ [error_line w e])%list
    | Ok c =>
        let announced :=
          [Printed ("Found " ++ str_of_nat (length (plots c)) ++ " plots and "
                    ++ str_of_nat (length (markdown c)) ++ " markdown cells");
           Printed ("Generating HTML dashboard with '" ++ arg_template a
                    ++ "' template...")] in
        match generate_html_dashboard w fuel now c (arg_output a)
                (arg_template a) with
        | None => None
        | Some (Err e) => Some (started ++ announced ++ [error_line w e])%list
        | Some (Ok events) =>
            Some (started ++ announced ++ events
                  ++ [Printed ("Dashboard successfully created: "
                               ++ arg_output a)])%list
        end
    end.

(** The files a run writes. *)
Definition writes (trace : list event) : list (string * string) :=
  flat_map
    (fun ev =>
       match ev with
       | Written path text => [(path, text)]
       | Printed _ => []
       end)
    trace.

(** ** Lines of the flat layouts *)

Definition is_content_div (line : string) : bool :=
  String.prefix "    <div class='content'>" line.

Definition is_plot_div (line : string) : bool :=
  String.prefix "    <div class='plot'>" line.

Definition is_text_tile (line : string) : bool :=
  String.prefix "        <div class='grid-item text-item'>" line.

Definition is_plot_tile (line : string) : bool :=
  String.prefix "        <div class='grid-item plot-item'>" line.

(** ** Values of the wrong kind *)

(** A value that is neither text nor a container. *)
Definition is_scalar (v : json) : bool :=
  match v with
  | JNull | JBool _ | JNum _ => true
  | _ => false
  end.

(** Some markdown cell read so far holds a title. *)
Definition title_found (views : list cell_view) : bool :=
  existsb
    (fun view =>
       match view with
       | MarkdownCell source =>
           match re_search title_re source with
           | Some _ => true
           | None => false
           end
       | OtherCell => false
       end)
    views.

(** The record of a document without cells. *)
Definition empty_record (fields : list (string * json)) : content :=
  Content "Dashboard" [] [] (or_default (JObj []) (dict_get "metadata" fields)).

(** ** What a pairing carries *)

(** The plots of a pairing, in order. *)
Definition pair_plots (entries : list pair) : list plot :=
  flat_map snd entries.

(** The markdown texts of a pairing, in order. *)
Definition pair_texts (entries : list pair) : list string :=
  flat_map (fun e => match fst e with Some m => [m] | None => [] end) entries.

Definition supported_mime (p : plot) : Prop := In (mime_type p) mime_types.

(** A text that does not begin with whitespace. *)
Definition starts_solid (s : string) : bool :=
  match s with
  | EmptyString => true
  | String c _ => negb (py_isspace c)
  end.

(** Every character of [s] passes [ok]. *)
Fixpoint all_chars (ok : ascii -> bool) (s : string) : bool :=
  match s with
  | EmptyString => true
  | String c t => ok c && all_chars ok t
  end.

(** ** The content of a well-shaped document *)

(** The plots of one cell: those of its Outputs when it is a code
    cell, none otherwise. *)
Definition cell_plots (cell : json) : list plot :=
  match cell with
  | JObj fields =>
      if json_is_str (or_default JNull (dict_get "cell_type" fields)) "code"
      then match dict_get "outputs" fields with
           | Some (JArr outputs) => flat_map output_plots outputs
           | _ => []
           end
      else []
  | _ => []
  end.

(** The markdown texts that are kept: those that are not blank. *)
Definition kept_texts (views : list cell_view) : list string :=
  flat_map
    (fun view =>
       match view with
       | MarkdownCell source => if str_truthy (strip source) then [source] else []
       | OtherCell => []
       end)
    views.

(** ** Payloads that render *)

Definition is_str (v : json) : bool :=
  match v with
  | JStr _ => true
  | _ => false
  end.

(** A plot renders unless its payload is a list that holds something
    other than strings. *)
Definition renderable (p : plot) : bool :=
  match data p with
  | JArr items => forallb is_str items
  | _ => true
  end.

(** ** Texts without markup *)

(** A character that starts no emphasis, no code span and no line. *)
Definition plain_char (c : ascii) : bool :=
  negb (Ascii.eqb "*" c) && negb (Ascii.eqb "`" c)
  && negb (Ascii.eqb c nl_char).

(** ** Blank lines *)

(** The text begins with a newline. *)
Definition head_nl (s : string) : bool :=
  match s with
  | EmptyString => false
  | String c _ => Ascii.eqb c nl_char
  end.

(** No two consecutive newlines anywhere in the text. *)
Fixpoint no_blank_line (s : string) : bool :=
  match s with
  | EmptyString => true
  | String c t => negb (Ascii.eqb c nl_char && head_nl t) && no_blank_line t
  end.

(** ** Sections of the default page *)

(** The line that opens section [i]. *)
Definition section_open (i : nat) : string :=
  "        <div class='section' id='section-" ++ str_of_nat i ++ "'>".

Definition is_section_open (line : string) : bool :=
  String.prefix "        <div class='section'" line.

(** ** The three heading rewrites together *)


Lemma skipn_nth_error_Some : forall (A : Type) (l : list A) (i : nat) (x : A),
  nth_error l i = Some x -> skipn i l = x :: skipn (S i) l.
Proof.
  induction l as [|a l IH]; intros [|i] x Hx; simpl in *; try discriminate.
  - now inversion Hx.
  - now apply IH.
Qed.

Lemma skipn_nth_error_None : forall (A : Type) (l : list A) (i : nat),
  nth_error l i = None -> skipn i l = [].
Proof.
  intros A l i Hi. apply skipn_all2. now apply nth_error_None.
Qed.

Lemma pairing_spec_nil_r : forall ms, pairing_spec ms [] = leftover_markdown ms.
Proof. now destruct ms. Qed.

Lemma pairing_spec_length : forall ms ps,
  length (pairing_spec ms ps) = Nat.max (length ms) (length ps).
Proof.
  induction ms as [|m ms IH]; intros ps; simpl.
  - unfold drain_plots. now rewrite length_map.
  - destruct ps as [|p ps]; simpl.
    + unfold leftover_markdown. now rewrite length_map.
    + now rewrite IH.
Qed.

(** What one turn does, read off the two lists at the two indices. *)
Lemma pair_step_eq : forall ms ps st,
  pair_step ms ps st =
  PairState
    (if md_truthy (nth_error ms (md_idx st)) then S (md_idx st) else md_idx st)
    (match nth_error ps (plot_idx st) with
     | Some _ => S (plot_idx st)
     | None => plot_idx st
     end)
    (pairs st ++ [(nth_error ms (md_idx st),
                   match nth_error ps (plot_idx st) with
                   | Some p => [p]
                   | None => []
                   end)]).
Proof.
  intros ms ps st. unfold pair_step.
  destruct (Nat.ltb (md_idx st) (length ms)) eqn:Hm;
    destruct (Nat.ltb (plot_idx st) (length ps)) eqn:Hp.
  - destruct (nth_error ps (plot_idx st)) eqn:E; [reflexivity|].
    apply nth_error_None in E. apply Nat.ltb_lt in Hp. lia.
  - apply Nat.ltb_ge in Hp. apply nth_error_None in Hp. now rewrite Hp.
  - apply Nat.ltb_ge in Hm. apply nth_error_None in Hm. rewrite Hm.
    destruct (nth_error ps (plot_idx st)) eqn:E; [reflexivity|].
    apply nth_error_None in E. apply Nat.ltb_lt in Hp. lia.
  - apply Nat.ltb_ge in Hm. apply nth_error_None in Hm. rewrite Hm.
    apply Nat.ltb_ge in Hp. apply nth_error_None in Hp. now rewrite Hp.
Qed.

Lemma pair_continue_eq : forall ms ps st,
  pair_continue ms ps st =
  match nth_error ms (md_idx st), nth_error ps (plot_idx st) with
  | None, None => false
  | _, _ => true
  end.
Proof.
  intros ms ps st. unfold pair_continue.
  destruct (nth_error ms (md_idx st)) eqn:Em;
    destruct (nth_error ps (plot_idx st)) eqn:Ep.
  - assert (md_idx st < length ms) by (apply nth_error_Some; congruence).
    apply Nat.ltb_lt in H. now rewrite H.
  - assert (md_idx st < length ms) by (apply nth_error_Some; congruence).
    apply Nat.ltb_lt in H. now rewrite H.
  - assert (plot_idx st < length ps) by (apply nth_error_Some; congruence).
    apply Nat.ltb_lt in H. rewrite H. apply orb_true_r.
  - apply nth_error_None in Em, Ep.
    apply Nat.ltb_ge in Em, Ep. now rewrite Em, Ep.
Qed.

(** The loop, started anywhere, appends the specified pairing of what
    is left of the two lists. *)
Lemma pair_loop_spec : forall fuel ms ps st,
  all_truthy (skipn (md_idx st) ms) ->
  Nat.max (length (skipn (md_idx st) ms)) (length (skipn (plot_idx st) ps)) < fuel ->
  pair_loop fuel ms ps st =
  Some (pairs st ++ pairing_spec (skipn (md_idx st) ms) (skipn (plot_idx st) ps))%list.
Proof.
  induction fuel as [|fuel IH]; intros ms ps [i j acc] Htruthy Hfuel;
    [lia|].
  cbn [pair_loop]. rewrite pair_continue_eq, pair_step_eq.
  cbn [md_idx plot_idx pairs] in *.
  destruct (nth_error ms i) as [m|] eqn:Em;
    destruct (nth_error ps j) as [p|] eqn:Ep.
  - rewrite (skipn_nth_error_Some _ _ _ _ Em) in *.
    rewrite (skipn_nth_error_Some _ _ _ _ Ep) in *.
    inversion Htruthy as [|? ? Hm Hrest]; subst.
    cbn [md_truthy]. rewrite Hm. rewrite IH; cbn [md_idx plot_idx pairs].
    + cbn [pairing_spec]. now rewrite <- app_assoc.
    + assumption.
    + cbn [length] in Hfuel. lia.
  - rewrite (skipn_nth_error_Some _ _ _ _ Em) in *.
    rewrite (skipn_nth_error_None _ _ _ Ep) in *.
    inversion Htruthy as [|? ? Hm Hrest]; subst.
    cbn [md_truthy]. rewrite Hm. rewrite IH; cbn [md_idx plot_idx pairs].
    + rewrite (skipn_nth_error_None _ _ _ Ep).
      rewrite pairing_spec_nil_r. cbn [pairing_spec leftover_markdown map].
      now rewrite <- app_assoc.
    + assumption.
    + rewrite (skipn_nth_error_None _ _ _ Ep). cbn [length] in *. lia.
  - rewrite (skipn_nth_error_None _ _ _ Em) in *.
    rewrite (skipn_nth_error_Some _ _ _ _ Ep) in *.
    cbn [md_truthy]. rewrite IH; cbn [md_idx plot_idx pairs].
    + rewrite (skipn_nth_error_None _ _ _ Em).
      cbn [pairing_spec drain_plots map]. now rewrite <- app_assoc.
    + rewrite (skipn_nth_error_None _ _ _ Em). constructor.
    + rewrite (skipn_nth_error_None _ _ _ Em). cbn [length] in *. lia.
  - rewrite (skipn_nth_error_None _ _ _ Em), (skipn_nth_error_None _ _ _ Ep).
    cbn [pairing_spec drain_plots map]. now rewrite app_nil_r.
Qed.

(** A markdown entry that is the empty string blocks the loop: the
    markdown index never passes it, so the loop condition never
    becomes false. *)
Lemma pair_loop_stuck : forall fuel ms ps st blocked,
  nth_error ms blocked = Some EmptyString ->
  md_idx st <= blocked ->
  pair_loop fuel ms ps st = None.
Proof.
  induction fuel as [|fuel IH]; intros ms ps [i j acc] blocked Hb Hle;
    [reflexivity|].
  cbn [pair_loop]. rewrite pair_continue_eq, pair_step_eq.
  cbn [md_idx plot_idx pairs] in *.
  assert (Hlt : i < length ms).
  { assert (blocked < length ms) by (apply nth_error_Some; congruence). lia. }
  destruct (nth_error ms i) as [m|] eqn:Em;
    [|apply nth_error_None in Em; lia].
  apply (IH _ _ _ blocked Hb). cbn [md_idx md_truthy].
  destruct (Nat.eq_dec i blocked) as [->|Hne].
  - rewrite Hb in Em. inversion Em; subst. cbn. lia.
  - destruct (str_truthy m); lia.
Qed.

Lemma pair_content_spec : forall (c : content) (fuel : nat),
  all_truthy (markdown c) ->
  Nat.max (length (markdown c)) (length (plots c)) < fuel ->
  _pair_content fuel c = Some (pairing_spec (markdown c) (plots c)).
Proof.
  intros c fuel Htruthy Hfuel. unfold _pair_content.
  now rewrite pair_loop_spec.
Qed.

(** C1.  On a content record whose markdown texts are non-empty (the
    content records of the data model), the pairing of the default
    template is the parallel walk of the two lists: each step carries
    at most one markdown text and at most one plot, one plot is
    consumed per step while plots remain, and after the markdown is
    exhausted every further step drains exactly one plot.  In
    particular, markdown [A, B] and plots [P1, P2, P3] pair as
    (A,[P1]), (B,[P2]), (None,[P3]). *)
Theorem pair_content_round_robin :
  (forall (c : content) (fuel : nat),
      all_truthy (markdown c) ->
      Nat.max (length (markdown c)) (length (plots c)) < fuel ->
      _pair_content fuel c = Some (pairing_spec (markdown c) (plots c)))
  /\
  (forall (t : string) (meta : json) (P1 P2 P3 : plot) (fuel : nat),
      3 < fuel ->
      _pair_content fuel (Content t [P1; P2; P3] ["A"; "B"] meta)
      = Some [(Some "A", [P1]); (Some "B", [P2]); (None, [P3])]).
Proof.
  split; [exact pair_content_spec|].
  intros t meta P1 P2 P3 fuel Hfuel.
  rewrite pair_content_spec; cbn [markdown plots length Nat.max];
    [reflexivity| |lia].
  repeat constructor.
Qed.

Lemma pair_content_round_robin_witness :
  let P1 := Plot "image/png" (JStr "AAAA") (JObj []) in
  let P2 := Plot "image/jpeg" (JStr "BBBB") (JObj []) in
  let P3 := Plot "image/svg+xml" (JStr "<svg/>") (JObj []) in
  let c := Content "Dashboard" [P1; P2; P3] ["A"; "B"] (JObj []) in
  all_truthy (markdown c)
  /\ Nat.max (length (markdown c)) (length (plots c)) < 4
  /\ _pair_content 4 c
     = Some [(Some "A", [P1]); (Some "B", [P2]); (None, [P3])].
Proof.
  intros P1 P2 P3 c.
  assert (Htruthy : all_truthy (markdown c)) by (repeat constructor).
  assert (Hfuel : Nat.max (length (markdown c)) (length (plots c)) < 4)
    by (simpl; lia).
  split; [exact Htruthy|]. split; [exact Hfuel|].
  exact (proj1 pair_content_round_robin c 4 Htruthy Hfuel).
Defined.

(** C10.  When every markdown text of the content record is
    non-empty, the pairing loop terminates and returns exactly
    max(number of markdown texts, number of plots) pairs.  The
    precondition is needed: a step whose markdown entry is the empty
    string leaves the markdown index where it is, and a record that
    holds such an entry never leaves the loop. *)
Theorem pair_content_terminates :
  (forall (c : content) (fuel : nat),
      all_truthy (markdown c) ->
      Nat.max (length (markdown c)) (length (plots c)) < fuel ->
      exists ps : list pair,
        _pair_content fuel c = Some ps
        /\ length ps = Nat.max (length (markdown c)) (length (plots c)))
  /\
  (forall (ms : list string) (ps : list plot) (st : pair_state),
      nth_error ms (md_idx st) = Some EmptyString ->
      md_idx (pair_step ms ps st) = md_idx st)
  /\
  (forall (c : content),
      In EmptyString (markdown c) ->
      forall fuel : nat, _pair_content fuel c = None).
Proof.
  split; [|split].
  - intros c fuel Htruthy Hfuel.
    exists (pairing_spec (markdown c) (plots c)). split.
    + now apply pair_content_spec.
    + apply pairing_spec_length.
  - intros ms ps st Hempty. rewrite pair_step_eq. cbn [md_idx].
    now rewrite Hempty.
  - intros c Hin fuel. apply In_nth_error in Hin. destruct Hin as [blocked Hb].
    unfold _pair_content. apply (pair_loop_stuck _ _ _ _ blocked Hb).
    cbn [md_idx]. lia.
Qed.

Lemma pair_content_terminates_witness :
  let P1 := Plot "image/png" (JStr "AAAA") (JObj []) in
  let good := Content "Dashboard" [P1] ["A"; "B"; "C"] (JObj []) in
  let bad := Content "Dashboard" [P1] ["A"; EmptyString] (JObj []) in
  (exists ps : list pair, _pair_content 4 good = Some ps /\ length ps = 3)
  /\ _pair_content 1000 bad = None.
Proof.
  intros P1 good bad. split.
  - apply (proj1 pair_content_terminates good 4).
    + repeat constructor.
    + simpl. lia.
  - apply (proj2 (proj2 pair_content_terminates) bad).
    simpl. right. left. reflexivity.
Defined.

(** ** Template selection *)

(** C5.  A template name outside default, minimal and grid selects the
    default template: for the same content record (and the same
    rendering time) the result is the one the name default gives,
    errors included, so the name itself raises none. *)
Theorem unknown_template_falls_back :
  forall (rt : PyRuntime) (fuel : nat) (now : string) (c : content)
         (template : string),
    ~ In template ["default"; "minimal"; "grid"] ->
    _create_html_template fuel now c template
    = _create_html_template fuel now c "default"
    /\ _create_html_template fuel now c template
      = _default_template fuel now c.
Proof.
  intros rt fuel now c template Hnot.
  assert (Hmin : String.eqb template "minimal" = false).
  { apply String.eqb_neq. intros ->. apply Hnot. simpl. tauto. }
  assert (Hgrid : String.eqb template "grid" = false).
  { apply String.eqb_neq. intros ->. apply Hnot. simpl. tauto. }
  unfold _create_html_template. rewrite Hmin, Hgrid. split; reflexivity.
Qed.

Lemma unknown_template_falls_back_witness :
  let c := Content "T" [Plot "image/png" (JStr "AAAA") (JObj [])]
                   ["# T"] (JObj []) in
  ~ In "fancy" ["default"; "minimal"; "grid"]
  /\ _create_html_template (rt := sample_runtime) 5 "2024-05-06 07:08:09" c "fancy"
     = _create_html_template (rt := sample_runtime) 5 "2024-05-06 07:08:09" c "default".
Proof.
  intros c.
  assert (Hnot : ~ In "fancy" ["default"; "minimal"; "grid"]).
  { cbn. intros [H|[H|[H|[]]]]; discriminate. }
  split; [exact Hnot|].
  exact (proj1 (unknown_template_falls_back sample_runtime 5
                  "2024-05-06 07:08:09" c "fancy" Hnot)).
Defined.

(** ** Plot extraction *)

Lemma scan_mime_types_obj : forall fields d mimes,
  scan_mime_types (JObj fields) (JObj d) mimes =
  Ok (flat_map
        (fun mime =>
           match dict_get mime d with
           | Some payload =>
               [Plot mime payload
                     (or_default (JObj []) (dict_get "metadata" fields))]
           | None => []
           end)
        mimes).
Proof.
  intros fields d mimes. induction mimes as [|mime more IH]; [reflexivity|].
  cbn [scan_mime_types flat_map py_contains py_getitem py_get bind].
  destruct (dict_get mime d) as [payload|] eqn:E.
  - cbn [bind]. rewrite IH.
    destruct (dict_get "metadata" fields); reflexivity.
  - exact IH.
Qed.

Lemma outputs_loop_spec : forall outputs,
  Forall output_shaped outputs ->
  outputs_loop outputs = Ok (flat_map output_plots outputs).
Proof.
  induction 1 as [|output more Hshape _ IH]; [reflexivity|].
  destruct Hshape as (fields & -> & Hdata).
  cbn [outputs_loop flat_map output_plots py_get].
  destruct (dict_get "output_type" fields) as [kind|] eqn:Ek;
    cbn [or_default bind] in *.
  - destruct (wanted_kind kind) eqn:Ew.
    + destruct (Hdata eq_refl) as [Hnone|[d Hd]].
      * rewrite Hnone. cbn [bind]. rewrite scan_mime_types_obj.
        cbn [bind]. now rewrite IH.
      * rewrite Hd. cbn [bind]. rewrite scan_mime_types_obj.
        cbn [bind]. now rewrite IH.
    + cbn [bind]. now rewrite IH.
  - cbn [bind]. now rewrite IH.
Qed.

(** C3.  The plots of a code cell are the plots of its Outputs, in
    Output order; an Output contributes only when its kind is
    display_data or execute_result, and then one plot per MIME type
    present in its data, scanned in the order image/png, image/jpeg,
    image/svg+xml, each carrying that MIME type, the payload and the
    metadata of the Output (not of the cell).  So an Output that
    exposes image/svg+xml and image/png yields the PNG plot before the
    SVG plot, and an Output of kind error yields none. *)
Theorem extract_plots_scan_order :
  (forall (fields : list (string * json)) (outputs : list json),
      dict_get "outputs" fields = Some (JArr outputs) ->
      Forall output_shaped outputs ->
      _extract_plots_from_cell (JObj fields)
      = Ok (flat_map output_plots outputs))
  /\
  (forall (kind : string) (png svg output_meta cell_meta : json),
      kind = "display_data" \/ kind = "execute_result" ->
      _extract_plots_from_cell
        (JObj [("cell_type", JStr "code");
               ("metadata", cell_meta);
               ("outputs",
                JArr [JObj [("output_type", JStr kind);
                            ("data", JObj [("image/svg+xml", svg);
                                           ("image/png", png)]);
                            ("metadata", output_meta)]])])
      = Ok [Plot "image/png" png output_meta;
            Plot "image/svg+xml" svg output_meta])
  /\
  (forall (d output_meta : json),
      _extract_plots_from_cell
        (JObj [("cell_type", JStr "code");
               ("outputs",
                JArr [JObj [("output_type", JStr "error");
                            ("data", d);
                            ("metadata", output_meta)]])])
      = Ok []).
Proof.
  split; [|split].
  - intros fields outputs Hout Hshape.
    unfold _extract_plots_from_cell. cbn [py_get]. rewrite Hout.
    cbn [bind py_iter]. now apply outputs_loop_spec.
  - intros kind png svg output_meta cell_meta [-> | ->]; reflexivity.
  - intros d output_meta. reflexivity.
Qed.

Lemma extract_plots_scan_order_witness :
  let output :=
    JObj [("output_type", JStr "execute_result");
          ("data", JObj [("text/plain", JStr "<Figure>");
                         ("image/jpeg", JStr "/9j/");
                         ("image/png", JStr "iVBOR")]);
          ("metadata", JObj [("needs_background", JStr "light")])] in
  let failed :=
    JObj [("output_type", JStr "error"); ("ename", JStr "ValueError")] in
  let fields :=
    [("cell_type", JStr "code"); ("outputs", JArr [failed; output])] in
  dict_get "outputs" fields = Some (JArr [failed; output])
  /\ Forall output_shaped [failed; output]
  /\ _extract_plots_from_cell (JObj fields)
     = Ok [Plot "image/png" (JStr "iVBOR")
                (JObj [("needs_background", JStr "light")]);
           Plot "image/jpeg" (JStr "/9j/")
                (JObj [("needs_background", JStr "light")])].
Proof.
  intros output failed fields.
  assert (Hget : dict_get "outputs" fields = Some (JArr [failed; output]))
    by reflexivity.
  assert (Hshape : Forall output_shaped [failed; output]).
  { constructor; [|constructor; [|constructor]].
    - eexists. split; [reflexivity|]. cbn. discriminate.
    - eexists. split; [reflexivity|]. intros _. right. eexists. reflexivity. }
  split; [exact Hget|]. split; [exact Hshape|].
  exact (proj1 extract_plots_scan_order fields [failed; output] Hget Hshape).
Defined.

(** ** Markdown filtering *)

Lemma str_truthy_not_empty : forall s, str_truthy s = true -> s <> EmptyString.
Proof. intros [|c t] H; [discriminate|congruence]. Qed.

(** The loop over the cells only ever appends texts that are not
    blank. *)
Lemma cells_loop_not_blank :
  forall (rt : PyRuntime) (cells : list json) (found_plots : list plot)
         (found_markdown : list string) (out_plots : list plot)
         (out_markdown : list string),
    Forall not_blank found_markdown ->
    cells_loop cells found_plots found_markdown = Ok (out_plots, out_markdown) ->
    Forall not_blank out_markdown.
Proof.
  intros rt cells. induction cells as [|cell more IH];
    intros found_plots found_markdown out_plots out_markdown Hacc Hrun.
  - cbn in Hrun. inversion Hrun; subst. exact Hacc.
  - cbn [cells_loop] in Hrun.
    destruct (py_getitem cell "cell_type") as [cell_type|e]; [|discriminate].
    cbn [bind] in Hrun.
    destruct (json_is_str cell_type "markdown").
    + destruct (_process_markdown_cell cell) as [text|e]; [|discriminate].
      cbn [bind] in Hrun.
      destruct (str_truthy (strip text)) eqn:Hkeep.
      * refine (IH _ _ _ _ _ Hrun). apply Forall_app. split; [exact Hacc|].
        constructor; [|constructor]. now apply str_truthy_not_empty.
      * apply (IH _ _ _ _ Hacc Hrun).
    + destruct (json_is_str cell_type "code").
      * destruct (_extract_plots_from_cell cell) as [new_plots|e];
          [|discriminate].
        cbn [bind] in Hrun. apply (IH _ _ _ _ Hacc Hrun).
      * apply (IH _ _ _ _ Hacc Hrun).
Qed.

(** C7.  Every markdown text of an extracted content record is
    non-empty after trimming: a markdown cell whose concatenated
    source is empty or whitespace-only is never in the markdown list
    of the content record. *)
Theorem markdown_never_blank :
  forall (rt : PyRuntime) (file : loaded) (c : content),
    parse_notebook file = Ok c ->
    Forall not_blank (markdown c)
    /\ (forall text : string, strip text = EmptyString -> ~ In text (markdown c)).
Proof.
  intros rt file c Hparse.
  assert (Hall : Forall not_blank (markdown c)).
  { destruct file as [e|notebook]; [discriminate|].
    cbn [parse_notebook] in Hparse.
    destruct (_extract_title notebook) as [t|e]; [|discriminate].
    cbn [bind] in Hparse.
    destruct (py_get notebook "metadata" (JObj [])) as [meta|e]; [|discriminate].
    cbn [bind] in Hparse.
    destruct (py_get notebook "cells" (JArr [])) as [cells|e]; [|discriminate].
    cbn [bind] in Hparse.
    destruct (py_iter cells) as [items|e]; [|discriminate].
    cbn [bind] in Hparse.
    destruct (cells_loop items [] []) as [[out_plots out_markdown]|e] eqn:Hloop;
      [|discriminate].
    cbn [bind fst snd] in Hparse. inversion Hparse; subst. cbn [markdown].
    apply (cells_loop_not_blank rt items [] [] out_plots out_markdown);
      [constructor|exact Hloop]. }
  split; [exact Hall|].
  intros text Hblank Hin.
  rewrite Forall_forall in Hall. exact (Hall text Hin Hblank).
Qed.

Lemma markdown_never_blank_witness :
  let blank := String " " (String nl_char (String "009" EmptyString)) in
  let notebook :=
    JObj [("cells",
           JArr [JObj [("cell_type", JStr "markdown"); ("source", JStr blank)];
                 JObj [("cell_type", JStr "markdown");
                       ("source", JArr [JStr "# Sales "; JStr "report"])];
                 JObj [("cell_type", JStr "raw"); ("source", JStr "x")]])] in
  let c := Content "Sales report" [] ["# Sales report"] (JObj []) in
  parse_notebook (rt := sample_runtime) (Loaded notebook) = Ok c
  /\ Forall not_blank (markdown c)
  /\ ~ In blank (markdown c).
Proof.
  intros blank notebook c.
  assert (Hparse : parse_notebook (rt := sample_runtime) (Loaded notebook) = Ok c)
    by reflexivity.
  split; [exact Hparse|].
  destruct (markdown_never_blank sample_runtime (Loaded notebook) c Hparse)
    as [Hall Hnone].
  split; [exact Hall|]. apply Hnone. reflexivity.
Defined.

(** ** Rendering *)

Lemma append_assoc : forall a b c : string, (a ++ b) ++ c = a ++ b ++ c.
Proof.
  induction a as [|x a IH]; intros b c; cbn; [reflexivity|]. now rewrite IH.
Qed.

Lemma prefix_split : forall needle hay,
  String.prefix needle hay = true -> exists after, hay = needle ++ after.
Proof.
  induction needle as [|x needle IH]; intros hay H.
  - exists hay. reflexivity.
  - destruct hay as [|y hay]; [discriminate|]. cbn in H.
    destruct (Ascii.ascii_dec x y) as [->|]; [|discriminate].
    destruct (IH hay H) as [after ->]. exists after. reflexivity.
Qed.

Lemma is_substring_contains : forall hay needle,
  is_substring needle hay = true -> contains hay needle.
Proof.
  induction hay as [|y hay IH]; intros needle H.
  - cbn [is_substring] in H. rewrite orb_false_r in H.
    destruct (prefix_split _ _ H) as [after E].
    exists EmptyString, after. exact E.
  - cbn [is_substring] in H. apply orb_true_iff in H. destruct H as [H|H].
    + destruct (prefix_split _ _ H) as [after E].
      exists EmptyString, after. exact E.
    + destruct (IH _ H) as (before & after & ->).
      exists (String y before), after. reflexivity.
Qed.

Lemma contains_append_l : forall a b needle,
  contains a needle -> contains (a ++ b) needle.
Proof.
  intros a b needle (before & after & ->).
  exists before, (after ++ b). now rewrite !append_assoc.
Qed.

Lemma contains_append_r : forall a b needle,
  contains b needle -> contains (a ++ b) needle.
Proof.
  intros a b needle (before & after & ->).
  exists (a ++ before), after. now rewrite !append_assoc.
Qed.

Lemma contains_middle : forall a needle b, contains (a ++ needle ++ b) needle.
Proof. intros a needle b. now exists a, b. Qed.

(** A text found in one of the joined parts is found in the whole. *)
Lemma contains_join : forall sep parts part needle,
  In part parts -> contains part needle -> contains (join sep parts) needle.
Proof.
  intros sep parts. induction parts as [|p rest IH]; intros part needle Hin Hc;
    [contradiction|].
  destruct Hin as [->|Hin].
  - destruct rest as [|q rest]; [exact Hc|].
    cbn [join]. now apply contains_append_l.
  - destruct rest as [|q rest]; [contradiction|].
    change (join sep (p :: q :: rest)) with (p ++ sep ++ join sep (q :: rest)).
    apply contains_append_r, contains_append_r. now apply (IH part).
Qed.

Lemma join_items_strs : forall fragments,
  join_items (map JStr fragments) = Ok (concat_all fragments).
Proof.
  induction fragments as [|f more IH]; [reflexivity|].
  cbn [map join_items]. now rewrite IH.
Qed.

Lemma contains_join_nth : forall sep parts k part needle,
  nth_error parts k = Some part ->
  contains part needle ->
  contains (join sep parts) needle.
Proof.
  intros sep parts k part needle Hk Hc.
  apply (contains_join sep parts part needle); [|exact Hc].
  now apply nth_error_In with k.
Qed.

(** C8.  For a content record with no markdown text and no plot, each
    of the three templates produces a page made of the shell lines
    alone: the page contains the title, and none of its lines opens a
    content section, a content or plot div, a grid tile or a rendered
    plot. *)
Theorem empty_record_renders_shell :
  forall (rt : PyRuntime) (fuel : nat) (now : string) (c : content),
    markdown c = [] ->
    plots c = [] ->
    0 < fuel ->
    (exists parts,
        default_parts fuel now c = Some (Ok parts)
        /\ _default_template fuel now c = Some (Ok (join nl parts))
        /\ contains (join nl parts) (title c)
        /\ filter is_content_line parts = [])
    /\
    (exists parts,
        minimal_parts c = Ok parts
        /\ _minimal_template c = Some (Ok (join nl parts))
        /\ contains (join nl parts) (title c)
        /\ filter is_content_line parts = [])
    /\
    (exists parts,
        grid_parts c = Ok parts
        /\ _grid_template c = Some (Ok (join nl parts))
        /\ contains (join nl parts) (title c)
        /\ filter is_content_line parts = []).
Proof.
  intros rt fuel now [t ps ms meta] Hms Hps Hfuel. cbn [markdown plots] in *.
  subst ms ps. split; [|split].
  - exists (default_head now (Content t [] [] meta) ++ default_foot)%list.
    assert (Hparts :
      default_parts fuel now (Content t [] [] meta)
      = Some (Ok (default_head now (Content t [] [] meta) ++ default_foot)%list)).
    { unfold default_parts. rewrite pair_content_spec.
      - reflexivity.
      - constructor.
      - cbn. lia. }
    split; [exact Hparts|]. split; [|split].
    + unfold _default_template. now rewrite Hparts.
    + apply (contains_join_nth _ _ 5 ("    <title>" ++ t ++ "</title>"));
        [reflexivity|apply contains_middle].
    + vm_compute. reflexivity.
  - exists (minimal_head (Content t [] [] meta) ++ ["</body>"; "</html>"])%list.
    split; [reflexivity|]. split; [reflexivity|]. split.
    + apply (contains_join_nth _ _ 5 ("    <title>" ++ t ++ "</title>"));
        [reflexivity|apply contains_middle].
    + vm_compute. reflexivity.
  - exists (grid_head (Content t [] [] meta)
            ++ ["    </div>"; "</body>"; "</html>"])%list.
    split; [reflexivity|]. split; [reflexivity|]. split.
    + apply (contains_join_nth _ _ 5 ("    <title>" ++ t ++ "</title>"));
        [reflexivity|apply contains_middle].
    + vm_compute. reflexivity.
Qed.

Lemma empty_record_renders_shell_witness :
  let c := Content "Dashboard" [] [] (JObj []) in
  exists parts,
    default_parts (rt := sample_runtime) 1 "2024-05-06 07:08:09" c
    = Some (Ok parts)
    /\ _default_template (rt := sample_runtime) 1 "2024-05-06 07:08:09" c
       = Some (Ok (join nl parts))
    /\ contains (join nl parts) "Dashboard"
    /\ filter is_content_line parts = [].
Proof.
  intros c.
  exact (proj1 (empty_record_renders_shell sample_runtime 1
                  "2024-05-06 07:08:09" c eq_refl eq_refl (le_n 1))).
Defined.

Lemma text_of_fragments : forall (rt : PyRuntime) fragments,
  text_of (JArr (map JStr fragments)) = Ok (concat_all fragments).
Proof.
  intros rt fragments. cbn [text_of py_join py_iter bind].
  apply join_items_strs.
Qed.

(** The marker lines are recognised where there is content: the
    smoke-test record has content lines under every template. *)
Lemma content_lines_detected :
  let c := Content "T" [Plot "image/png" (JStr "AAAA") (JObj [])]
                   ["# T"] (JObj []) in
  (exists parts,
      default_parts (rt := sample_runtime) 2 "now" c = Some (Ok parts)
      /\ length (filter is_content_line parts) = 4)
  /\ (exists parts,
         minimal_parts (rt := sample_runtime) c = Ok parts
         /\ length (filter is_content_line parts) = 2)
  /\ (exists parts,
         grid_parts (rt := sample_runtime) c = Ok parts
         /\ length (filter is_content_line parts) = 2).
Proof.
  intros c. repeat split; eexists; split;
    try (vm_compute; reflexivity).
Qed.

(** C9.  The text of a payload given as a list of fragments is their
    concatenation with no separator (and a string payload is its own
    text).  For image/svg+xml the text is embedded as it is inside a
    wrapping element; for image/png and image/jpeg it is embedded
    after the base64 data-URI prefix inside an image element.  The
    smoke-test document (one markdown cell with a heading T and a
    bold word, one code cell whose Output carries the PNG payload
    AAAA) renders under the default template to a page containing the
    main-title heading T, a paragraph containing the strong element
    and the image data URI. *)
Theorem plot_to_html_embeds :
  (forall (rt : PyRuntime) (fragments : list string) (s : string),
      text_of (JArr (map JStr fragments)) = Ok (concat_all fragments)
      /\ text_of (JStr s) = Ok s)
  /\
  (forall (rt : PyRuntime) (payload meta : json) (text : string),
      text_of payload = Ok text ->
      _plot_to_html (Plot "image/svg+xml" payload meta)
      = Ok ("<div class=" ++ dq ++ "plot-svg" ++ dq ++ ">" ++ text ++ "</div>"))
  /\
  (forall (rt : PyRuntime) (mime : string) (payload meta : json)
          (text : string),
      mime = "image/png" \/ mime = "image/jpeg" ->
      text_of payload = Ok text ->
      _plot_to_html (Plot mime payload meta)
      = Ok ("<img src=" ++ dq ++ "data:" ++ mime ++ ";base64," ++ text ++ dq
            ++ " alt=" ++ dq ++ "Plot" ++ dq
            ++ " class=" ++ dq ++ "plot-image" ++ dq ++ ">"))
  /\
  (forall (rt : PyRuntime) (fuel : nat) (now kind : string),
      1 < fuel ->
      kind = "display_data" \/ kind = "execute_result" ->
      exists (c : content) (html : string),
        parse_notebook (Loaded (smoke_notebook kind)) = Ok c
        /\ _create_html_template fuel now c "default" = Some (Ok html)
        /\ contains html "<h1 class='main-title'>T</h1>"
        /\ contains html "<p>Hello <strong>world</strong></p>"
        /\ contains html ("<img src=" ++ dq ++ "data:image/png;base64,AAAA" ++ dq)).
Proof.
  split; [|split; [|split]].
  - intros rt fragments s. split; [apply text_of_fragments|reflexivity].
  - intros rt payload meta text Htext. unfold _plot_to_html.
    cbn [mime_type data].
    change (String.eqb "image/svg+xml" "image/svg+xml") with true. cbv iota.
    now rewrite Htext.
  - intros rt mime payload meta text Hmime Htext. unfold _plot_to_html.
    cbn [mime_type data].
    assert (Hne : String.eqb mime "image/svg+xml" = false)
      by (destruct Hmime as [-> | ->]; reflexivity).
    rewrite Hne. now rewrite Htext.
  - intros rt fuel now kind Hfuel Hkind.
    set (c := Content "T" [Plot "image/png" (JStr "AAAA") (JObj [])]
                      ["# T" ++ nl ++ nl ++ "Hello **world**"] (JObj [])).
    set (body :=
      ["        <div class='section' id='section-0'>";
       "            <div class='markdown-content'>";
       "                <p><h1>T</h1></p><p>Hello <strong>world</strong></p>";
       "            </div>";
       "            <div class='plots-container'>";
       "<img src=" ++ dq ++ "data:image/png;base64,AAAA" ++ dq
         ++ " alt=" ++ dq ++ "Plot" ++ dq
         ++ " class=" ++ dq ++ "plot-image" ++ dq ++ ">";
       "            </div>";
       "        </div>"]).
    assert (Hparse : parse_notebook (Loaded (smoke_notebook kind)) = Ok c)
      by (destruct Hkind as [-> | ->]; vm_compute; reflexivity).
    assert (Hparts :
      default_parts fuel now c
      = Some (Ok (default_head now c ++ body ++ default_foot)%list)).
    { unfold default_parts. rewrite pair_content_spec.
      - vm_compute. reflexivity.
      - repeat constructor.
      - cbn. lia. }
    exists c, (join nl (default_head now c ++ body ++ default_foot)%list).
    split; [exact Hparse|]. split; [|split; [|split]].
    + unfold _create_html_template.
      change (String.eqb "default" "minimal") with false.
      change (String.eqb "default" "grid") with false. cbv iota.
      unfold _default_template. now rewrite Hparts.
    + apply (contains_join_nth _ _ 12 "        <h1 class='main-title'>T</h1>");
        [reflexivity|]. apply is_substring_contains. vm_compute. reflexivity.
    + apply (contains_join_nth _ _ 16
        "                <p><h1>T</h1></p><p>Hello <strong>world</strong></p>");
        [reflexivity|]. apply is_substring_contains. vm_compute. reflexivity.
    + apply (contains_join_nth _ _ 19
        ("<img src=" ++ dq ++ "data:image/png;base64,AAAA" ++ dq
         ++ " alt=" ++ dq ++ "Plot" ++ dq
         ++ " class=" ++ dq ++ "plot-image" ++ dq ++ ">"));
        [reflexivity|]. apply is_substring_contains. vm_compute. reflexivity.
Qed.

Lemma plot_to_html_embeds_witness :
  let payload := JArr (map JStr ["/9j/"; "4AAQ"; "SkZJ"]) in
  text_of (rt := sample_runtime) payload = Ok "/9j/4AAQSkZJ"
  /\ _plot_to_html (rt := sample_runtime) (Plot "image/jpeg" payload (JObj []))
     = Ok ("<img src=" ++ dq ++ "data:image/jpeg;base64,"
           ++ "/9j/4AAQSkZJ" ++ dq
           ++ " alt=" ++ dq ++ "Plot" ++ dq
           ++ " class=" ++ dq ++ "plot-image" ++ dq ++ ">").
Proof.
  intros payload.
  assert (Htext : text_of (rt := sample_runtime) payload = Ok "/9j/4AAQSkZJ")
    by reflexivity.
  split; [exact Htext|].
  exact (proj1 (proj2 (proj2 plot_to_html_embeds)) sample_runtime "image/jpeg"
           payload (JObj []) "/9j/4AAQSkZJ" (or_intror eq_refl) Htext).
Defined.

(** ** Title resolution *)

Lemma title_loop_views : forall cells views,
  Forall2 reads_as cells views ->
  title_loop cells = Ok (title_of views).
Proof.
  induction 1 as [|cell view cells views Hread _ IH]; [reflexivity|].
  destruct Hread as (fields & cell_type & -> & Htype & Hview).
  cbn [title_loop py_getitem py_get]. rewrite Htype. cbn [bind].
  destruct view as [source|].
  - destruct Hview as [Hmd Hsrc]. rewrite Hmd.
    destruct (dict_get "source" fields) as [src|]; cbn [or_default bind] in *;
      rewrite Hsrc; cbn [bind title_of];
      destruct (re_search title_re source); [reflexivity|exact IH
                                             |reflexivity|exact IH].
  - rewrite Hview. exact IH.
Qed.

(** Where a line cannot start with the heading mark, no match starts. *)
Lemma match_at_title_none : forall p c t,
  at_bol p && Ascii.eqb hash_char c = false ->
  match_at title_re p (String c t) = None.
Proof.
  intros p c t H. unfold match_at, title_re. cbn [rmatch lit prev rest eat].
  destruct (at_bol p); [|reflexivity].
  cbn [andb] in H. unfold hash_char in H. now rewrite H.
Qed.

Lemma search_from_skip : forall before p s,
  no_heading_start p before = true ->
  search_from title_re p (before ++ s) = search_from title_re (last_of p before) s.
Proof.
  induction before as [|c t IH]; intros p s H; [reflexivity|].
  cbn [no_heading_start] in H. apply andb_true_iff in H. destruct H as [Hc Ht].
  apply negb_true_iff in Hc.
  cbn [String.append search_from last_of].
  rewrite (match_at_title_none _ _ _ Hc). now apply IH.
Qed.

Lemma my_title_matches : forall p after,
  at_bol p = true ->
  at_eol after = true ->
  exists found,
    match_at title_re p ("# My Title" ++ after) = Some found
    /\ group found = "My Title".
Proof.
  intros p after Hp Ha. unfold match_at, title_re.
  cbn [rmatch lit prev rest]. rewrite Hp.
  destruct after as [|c t].
  - eexists. split; [vm_compute; reflexivity|reflexivity].
  - cbn [at_eol] in Ha. apply Ascii.eqb_eq in Ha. subst c.
    eexists. split; [vm_compute; reflexivity|reflexivity].
Qed.

Lemma my_title_found : forall before after,
  no_heading_start None before = true ->
  own_line before after ->
  exists found,
    re_search title_re (before ++ "# My Title" ++ after) = Some found
    /\ strip (group found) = "My Title".
Proof.
  intros before after Hfree [Hbol Heol]. unfold re_search.
  rewrite (search_from_skip _ _ _ Hfree).
  destruct (my_title_matches _ after Hbol Heol) as (found & Hm & Hg).
  exists found. split.
  - change ("# My Title" ++ after) with (String "#" (" My Title" ++ after)) in *.
    cbn [search_from]. now rewrite Hm.
  - now rewrite Hg.
Qed.

Lemma title_of_others : forall others views,
  Forall (eq OtherCell) others ->
  title_of (others ++ views) = title_of views.
Proof.
  induction 1 as [|view others Hview _ IH]; [reflexivity|].
  subst view. exact IH.
Qed.

Lemma extract_title_views : forall fields cells views,
  dict_get "cells" fields = Some (JArr cells) ->
  Forall2 reads_as cells views ->
  _extract_title (JObj fields) = Ok (title_of views).
Proof.
  intros fields cells views Hcells Hviews.
  unfold _extract_title. cbn [py_get]. rewrite Hcells. cbn [bind py_iter].
  now apply title_loop_views.
Qed.

(** C4, as the code has it.  The title scan goes through the cells in
    order; in the first markdown cell whose concatenated source has a
    match of the title pattern it takes the first match and returns
    its group, trimmed; with no match in any markdown cell, and with
    no cells at all, the title is the literal Dashboard.  A first
    markdown cell that holds the line # My Title on its own line
    yields My Title when no earlier line of that cell begins with the
    heading mark. *)
Theorem title_resolution :
  (forall (fields : list (string * json)),
      dict_get "cells" fields = None ->
      _extract_title (JObj fields) = Ok "Dashboard")
  /\
  (forall (fields : list (string * json)) (cells : list json)
          (views : list cell_view),
      dict_get "cells" fields = Some (JArr cells) ->
      Forall2 reads_as cells views ->
      _extract_title (JObj fields) = Ok (title_of views))
  /\
  (forall (fields : list (string * json)) (cells : list json)
          (others later : list cell_view) (before after : string),
      dict_get "cells" fields = Some (JArr cells) ->
      Forall2 reads_as cells
        (others ++ MarkdownCell (before ++ "# My Title" ++ after) :: later) ->
      Forall (eq OtherCell) others ->
      own_line before after ->
      no_heading_start None before = true ->
      _extract_title (JObj fields) = Ok "My Title").
Proof.
  split; [|split].
  - intros fields Hnone. unfold _extract_title. cbn [py_get].
    now rewrite Hnone.
  - exact extract_title_views.
  - intros fields cells others later before after Hcells Hviews Hothers
      Hline Hfree.
    rewrite (extract_title_views _ _ _ Hcells Hviews).
    rewrite (title_of_others _ _ Hothers). cbn [title_of].
    destruct (my_title_found before after Hfree Hline) as (found & -> & ->).
    reflexivity.
Qed.

Lemma title_resolution_witness :
  let before := "Quarterly numbers" ++ nl ++ nl in
  let after := nl ++ "# Appendix" ++ nl in
  let code := JObj [("cell_type", JStr "code"); ("source", JStr "# setup")] in
  let text :=
    JObj [("cell_type", JStr "markdown");
          ("source", JArr [JStr before; JStr "# My "; JStr "Title"; JStr after])] in
  let fields := [("metadata", JObj []); ("cells", JArr [code; text])] in
  own_line before after
  /\ no_heading_start None before = true
  /\ _extract_title (JObj fields) = Ok "My Title".
Proof.
  intros before after code text fields.
  assert (Hline : own_line before after) by (split; reflexivity).
  assert (Hfree : no_heading_start None before = true) by reflexivity.
  split; [exact Hline|]. split; [exact Hfree|].
  refine (proj2 (proj2 title_resolution) fields [code; text] [OtherCell] []
            before after eq_refl _ _ Hline Hfree).
  - constructor; [|constructor; [|constructor]].
    + eexists _, _. split; [reflexivity|]. split; reflexivity.
    + eexists _, _. split; [reflexivity|]. split; [reflexivity|].
      split; reflexivity.
  - constructor; [reflexivity|constructor].
Defined.

(** An earlier heading line in the same cell wins: the title is not
    My Title although that line stands on its own. *)
Lemma title_first_match_counterexample :
  let before := "# Intro" ++ nl in
  own_line before EmptyString
  /\ _extract_title (markdown_notebook (before ++ "# My Title" ++ EmptyString))
     = Ok "Intro"
  /\ _extract_title (markdown_notebook (before ++ "# My Title" ++ EmptyString))
     <> Ok "My Title".
Proof.
  intros before. split; [split; reflexivity|].
  assert (H : _extract_title
                (markdown_notebook (before ++ "# My Title" ++ EmptyString))
              = Ok "Intro") by (vm_compute; reflexivity).
  split; [exact H|]. rewrite H. discriminate.
Qed.

(** The whitespace after the heading mark may be a line break: the
    match then runs over two lines and the title is the next line. *)
Lemma title_match_spans_lines :
  _extract_title (markdown_notebook ("#" ++ nl ++ "Summary")) = Ok "Summary".
Proof. vm_compute. reflexivity. Qed.

(** ** Parsing *)

Lemma join_items_chars : forall s, join_items (chars_of s) = Ok s.
Proof.
  induction s as [|c t IH]; [reflexivity|].
  cbn [chars_of join_items]. now rewrite IH.
Qed.

Lemma source_shaped_joins : forall fields,
  source_shaped fields ->
  exists source,
    py_join (or_default (JArr []) (dict_get "source" fields)) = Ok source.
Proof.
  intros fields [Hnone|[[s Hs]|[fragments Hf]]].
  - rewrite Hnone. now exists EmptyString.
  - rewrite Hs. exists s. apply join_items_chars.
  - rewrite Hf. exists (concat_all fragments). apply join_items_strs.
Qed.

Lemma cell_shaped_reads : forall cell,
  cell_shaped cell -> exists view, reads_as cell view.
Proof.
  intros cell (fields & -> & [[Htype Hsrc]|[Htype _]]).
  - destruct (source_shaped_joins fields Hsrc) as [source Hjoin].
    exists (MarkdownCell source), fields, (JStr "markdown").
    repeat split; assumption.
  - exists OtherCell, fields, (JStr "code"). repeat split; assumption.
Qed.

Lemma cells_shaped_read : forall cells,
  Forall cell_shaped cells -> exists views, Forall2 reads_as cells views.
Proof.
  induction 1 as [|cell cells Hcell _ [views IH]].
  - exists []. constructor.
  - destruct (cell_shaped_reads cell Hcell) as [view Hview].
    exists (view :: views). now constructor.
Qed.

Lemma process_markdown_shaped : forall (rt : PyRuntime) fields,
  source_shaped fields ->
  exists text, _process_markdown_cell (JObj fields) = Ok text.
Proof.
  intros rt fields [Hnone|[[s Hs]|[fragments Hf]]];
    unfold _process_markdown_cell; cbn [py_get].
  - rewrite Hnone. now exists EmptyString.
  - rewrite Hs. now exists s.
  - rewrite Hf. cbn [bind]. exists (concat_all fragments).
    apply text_of_fragments.
Qed.

Lemma extract_plots_shaped : forall fields,
  outputs_shaped fields ->
  exists found, _extract_plots_from_cell (JObj fields) = Ok found.
Proof.
  intros fields [Hnone|(outputs & Hout & Hshape)];
    unfold _extract_plots_from_cell; cbn [py_get].
  - rewrite Hnone. now exists [].
  - rewrite Hout. cbn [bind py_iter].
    exists (flat_map output_plots outputs). now apply outputs_loop_spec.
Qed.

Lemma cells_loop_shaped : forall (rt : PyRuntime) cells,
  Forall cell_shaped cells ->
  forall found_plots found_markdown,
  exists lists, cells_loop cells found_plots found_markdown = Ok lists.
Proof.
  intros rt cells. induction 1 as [|cell cells Hcell _ IH];
    intros found_plots found_markdown.
  - now exists (found_plots, found_markdown).
  - destruct Hcell as (fields & -> & [[Htype Hsrc]|[Htype Hout]]);
      cbn [cells_loop py_getitem]; rewrite Htype; cbn [bind].
    + change (json_is_str (JStr "markdown") "markdown") with true. cbv iota.
      destruct (process_markdown_shaped rt fields Hsrc) as [text ->].
      cbn [bind]. destruct (str_truthy (strip text)); apply IH.
    + change (json_is_str (JStr "code") "markdown") with false.
      change (json_is_str (JStr "code") "code") with true. cbv iota.
      destruct (extract_plots_shaped fields Hout) as [found ->].
      cbn [bind]. apply IH.
Qed.

(** A cell object without a cell_type field stops both scans: the
    title scan unless it has found a title before, the loop over the
    cells always. *)
Lemma title_loop_missing_type : forall before fields more,
  Forall cell_shaped before ->
  dict_get "cell_type" fields = None ->
  title_loop (before ++ JObj fields :: more) = Err KeyError
  \/ exists t, title_loop (before ++ JObj fields :: more) = Ok t.
Proof.
  intros before fields more Hshape Htype.
  induction Hshape as [|cell before Hcell _ IH].
  - left. cbn [app title_loop py_getitem]. now rewrite Htype.
  - destruct Hcell as (cf & -> & [[Hct Hsrc]|[Hct _]]);
      cbn [app title_loop py_getitem]; rewrite Hct; cbn [bind].
    + change (json_is_str (JStr "markdown") "markdown") with true. cbv iota.
      destruct (source_shaped_joins cf Hsrc) as [source Hjoin].
      assert (Hget : py_get (JObj cf) "source" (JArr [])
                     = Ok (or_default (JArr []) (dict_get "source" cf)))
        by (cbn [py_get]; now destruct (dict_get "source" cf)).
      rewrite Hget. cbn [bind]. rewrite Hjoin. cbn [bind].
      destruct (re_search title_re source); [right; eauto|exact IH].
    + change (json_is_str (JStr "code") "markdown") with false. exact IH.
Qed.

Lemma cells_loop_missing_type :
  forall (rt : PyRuntime) before fields more found_plots found_markdown,
    Forall cell_shaped before ->
    dict_get "cell_type" fields = None ->
    cells_loop (before ++ JObj fields :: more) found_plots found_markdown
    = Err KeyError.
Proof.
  intros rt before fields more found_plots found_markdown Hshape Htype.
  revert found_plots found_markdown.
  induction Hshape as [|cell before Hcell _ IH];
    intros found_plots found_markdown.
  - cbn [app cells_loop py_getitem]. now rewrite Htype.
  - destruct Hcell as (cf & -> & [[Hct Hsrc]|[Hct Hout]]);
      cbn [app cells_loop py_getitem]; rewrite Hct; cbn [bind].
    + change (json_is_str (JStr "markdown") "markdown") with true. cbv iota.
      destruct (process_markdown_shaped rt cf Hsrc) as [text ->].
      cbn [bind]. destruct (str_truthy (strip text)); apply IH.
    + change (json_is_str (JStr "code") "markdown") with false.
      change (json_is_str (JStr "code") "code") with true. cbv iota.
      destruct (extract_plots_shaped cf Hout) as [found ->].
      cbn [bind]. apply IH.
Qed.

(** C6, as the code has it.  Parsing fails with the exception of the
    load when the file is missing, unreadable or not valid JSON, and
    it fails when the decoded value is not an object or when a cell
    object (after cells of the expected shape) has no cell_type field.  It returns a content record for
    every document of the expected shape; a document without a cells
    field is such a document and gives the title Dashboard with empty
    markdown and plot lists.  The converse does not hold: documents
    outside the expected shape are accepted too. *)
Theorem parse_notebook_outcomes :
  (forall (rt : PyRuntime) (e : py_error),
      parse_notebook (LoadFailed e) = Err e)
  /\
  (forall (rt : PyRuntime) (notebook : json),
      (forall fields, notebook <> JObj fields) ->
      parse_notebook (Loaded notebook) = Err AttributeError)
  /\
  (forall (rt : PyRuntime) (top fields : list (string * json))
          (before more : list json),
      dict_get "cells" top = Some (JArr (before ++ JObj fields :: more)) ->
      Forall cell_shaped before ->
      dict_get "cell_type" fields = None ->
      parse_notebook (Loaded (JObj top)) = Err KeyError)
  /\
  (forall (rt : PyRuntime) (notebook : json),
      document_shaped notebook ->
      exists c : content, parse_notebook (Loaded notebook) = Ok c)
  /\
  (forall (rt : PyRuntime) (fields : list (string * json)),
      dict_get "cells" fields = None ->
      parse_notebook (Loaded (JObj fields))
      = Ok (Content "Dashboard" [] []
                    (or_default (JObj []) (dict_get "metadata" fields)))).
Proof.
  split; [|split; [|split; [|split]]].
  - reflexivity.
  - intros rt notebook Hnot.
    destruct notebook; try reflexivity. now destruct (Hnot fields).
  - intros rt top fields before more Hcells Hshape Htype.
    cbn [parse_notebook]. unfold _extract_title. cbn [py_get].
    rewrite Hcells. cbn [bind py_iter].
    destruct (title_loop_missing_type before fields more Hshape Htype)
      as [->|[t ->]]; [reflexivity|].
    cbn [bind]. destruct (dict_get "metadata" top); cbn [bind];
      now rewrite cells_loop_missing_type.
  - intros rt notebook (fields & -> & [Hnone|(cells & Hcells & Hshape)]).
    + exists (Content "Dashboard" [] []
                      (or_default (JObj []) (dict_get "metadata" fields))).
      cbn [parse_notebook]. unfold _extract_title. cbn [py_get].
      rewrite Hnone. cbn [bind py_iter title_loop cells_loop].
      destruct (dict_get "metadata" fields); reflexivity.
    + destruct (cells_shaped_read cells Hshape) as [views Hviews].
      destruct (cells_loop_shaped rt cells Hshape [] []) as [lists Hloop].
      exists (Content (title_of views) (fst lists) (snd lists)
                      (or_default (JObj []) (dict_get "metadata" fields))).
      cbn [parse_notebook].
      rewrite (extract_title_views _ _ _ Hcells Hviews).
      cbn [bind py_get]. rewrite Hcells.
      destruct (dict_get "metadata" fields); cbn [bind py_iter];
        rewrite Hloop; reflexivity.
  - intros rt fields Hnone. cbn [parse_notebook]. unfold _extract_title.
    cbn [py_get]. rewrite Hnone. cbn [bind py_iter title_loop cells_loop].
    destruct (dict_get "metadata" fields); reflexivity.
Qed.

Lemma parse_notebook_outcomes_witness :
  let notebook :=
    JObj [("nbformat", JNum "4");
          ("metadata", JObj [("kernelspec", JStr "python3")])] in
  document_shaped notebook
  /\ parse_notebook (rt := sample_runtime) (Loaded notebook)
     = Ok (Content "Dashboard" [] [] (JObj [("kernelspec", JStr "python3")])).
Proof.
  intros notebook. split.
  - eexists. split; [reflexivity|]. left. reflexivity.
  - exact (proj2 (proj2 (proj2 (proj2 parse_notebook_outcomes)))
             sample_runtime
             [("nbformat", JNum "4");
              ("metadata", JObj [("kernelspec", JStr "python3")])]
             eq_refl).
Defined.

(** A document outside the expected shape that parses all the same:
    its only cell is neither a markdown nor a code cell. *)
Lemma parse_accepts_unshaped_counterexample :
  let notebook :=
    JObj [("cells", JArr [JObj [("cell_type", JStr "raw");
                                ("source", JStr "plain text")]])] in
  ~ document_shaped notebook
  /\ parse_notebook (rt := sample_runtime) (Loaded notebook)
     = Ok (Content "Dashboard" [] [] (JObj [])).
Proof.
  intros notebook. split; [|reflexivity].
  intros (fields & Heq & Hcells). inversion Heq; subst fields; clear Heq.
  destruct Hcells as [Hnone|(cells & Hget & Hshape)]; [discriminate|].
  cbn in Hget. inversion Hget; subst cells; clear Hget.
  inversion Hshape as [|cell rest Hcell _]; subst.
  destruct Hcell as (fields & Heq & [[Htype _]|[Htype _]]);
    inversion Heq; subst fields; discriminate.
Qed.

(** ** The heading rewrites work line by line *)

Lemma length_append : forall a b,
  String.length (a ++ b) = String.length a + String.length b.
Proof.
  induction a as [|c a IH]; intros b; cbn; [reflexivity|]. now rewrite IH.
Qed.

Lemma append_nil_r : forall a : string, a ++ EmptyString = a.
Proof.
  induction a as [|c a IH]; cbn; [reflexivity|]. now rewrite IH.
Qed.

Lemma join_tail_text : forall l more, join nl (l :: more) = l ++ tail_text more.
Proof.
  intros l more. revert l. induction more as [|l2 more IH]; intros l.
  - cbn. now rewrite append_nil_r.
  - change (join nl (l :: l2 :: more)) with (l ++ nl ++ join nl (l2 :: more)).
    rewrite IH. reflexivity.
Qed.

Lemma newline_free_app : forall a b,
  newline_free (a ++ b) = newline_free a && newline_free b.
Proof.
  induction a as [|c a IH]; intros b; cbn; [reflexivity|].
  rewrite IH. now rewrite andb_assoc.
Qed.

Lemma strip_prefix_Some : forall pre s x,
  strip_prefix pre s = Some x -> s = pre ++ x.
Proof.
  induction pre as [|c pre IH]; intros s x H; cbn in *.
  - now inversion H.
  - destruct s as [|c' r]; [discriminate|].
    destruct (Ascii.eqb_spec c c') as [->|]; [|discriminate].
    now rewrite (IH _ _ H).
Qed.

Lemma strip_prefix_app : forall pre x, strip_prefix pre (pre ++ x) = Some x.
Proof.
  induction pre as [|c pre IH]; intros x; cbn; [reflexivity|].
  now rewrite Ascii.eqb_refl.
Qed.

(** A mark without newline that is not a prefix of a line is not a
    prefix of the line followed by the end of the line either. *)
Lemma strip_prefix_line_None : forall pre line after,
  newline_free pre = true ->
  at_eol after = true ->
  strip_prefix pre line = None ->
  strip_prefix pre (line ++ after) = None.
Proof.
  induction pre as [|c pre IH]; intros line after Hpre Hafter Hnone;
    [discriminate|].
  cbn in Hpre. apply andb_true_iff in Hpre. destruct Hpre as [Hc Hpre].
  apply negb_true_iff in Hc.
  destruct line as [|c' line]; cbn in *.
  - destruct after as [|a after]; [reflexivity|].
    cbn in Hafter. apply Ascii.eqb_eq in Hafter. subst a. now rewrite Hc.
  - destruct (Ascii.eqb c c'); [|reflexivity]. now apply IH.
Qed.

(** A literal consumes exactly its text. *)
Lemma rmatch_lit : forall pre p s chars g k,
  rmatch (lit pre) (MState p s chars g) k =
  match strip_prefix pre s with
  | Some t => k (MState (last_of p pre) t (push_chars pre chars) g)
  | None => None
  end.
Proof.
  induction pre as [|c pre IH]; intros p s chars g k; [reflexivity|].
  destruct pre as [|c2 pre].
  - cbn [lit rmatch strip_prefix last_of push_chars]. unfold eat.
    cbn [rest cap group1].
    destruct s as [|c' r]; [reflexivity|].
    now destruct (Ascii.eqb_spec c c') as [->|].
  - change (lit (String c (String c2 pre)))
      with (Chr c +++ lit (String c2 pre)).
    cbn [rmatch]. unfold eat at 1. cbn [rest cap group1].
    destruct s as [|c' r]; [reflexivity|].
    cbn [strip_prefix last_of push_chars].
    destruct (Ascii.eqb_spec c c') as [->|]; [|reflexivity].
    apply IH.
Qed.

Lemma plus_loop_S : forall one greedy k fuel st,
  plus_loop one greedy k (S fuel) st =
  one st (fun st1 =>
    if greedy
    then match plus_loop one greedy k fuel st1 with
         | Some m => Some m
         | None => k st1
         end
    else match k st1 with
         | Some m => Some m
         | None => plus_loop one greedy k fuel st1
         end).
Proof. reflexivity. Qed.

Lemma rmatch_dot_cons : forall dotall p c t chars g k,
  rmatch (Dot dotall) (MState p (String c t) chars g) k =
  if dot_ok dotall c then k (MState (Some c) t (c :: chars) g) else None.
Proof. reflexivity. Qed.

Lemma rmatch_dot_at_eol : forall p after chars g k,
  at_eol after = true ->
  rmatch (Dot false) (MState p after chars g) k = None.
Proof.
  intros p [|a after] chars g k H; [reflexivity|].
  rewrite rmatch_dot_cons. cbn in H. unfold dot_ok. now rewrite H.
Qed.

(** At the end of a line the dot has nothing to take. *)
Lemma plus_dot_at_eol : forall greedy k fuel p after chars g,
  at_eol after = true ->
  plus_loop (rmatch (Dot false)) greedy k fuel (MState p after chars g) = None.
Proof.
  intros greedy k [|fuel] p after chars g H; [reflexivity|].
  rewrite plus_loop_S. now apply rmatch_dot_at_eol.
Qed.

(** The greedy [.+] takes a whole line when what follows succeeds at
    its end. *)
Lemma plus_dot_line : forall body p after chars g k fuel m,
  newline_free body = true ->
  body <> EmptyString ->
  at_eol after = true ->
  String.length body <= fuel ->
  k (MState (last_of p body) after (push_chars body chars) g) = Some m ->
  plus_loop (rmatch (Dot false)) true k fuel (MState p (body ++ after) chars g)
  = Some m.
Proof.
  induction body as [|c body IH]; intros p after chars g k fuel m
    Hfree Hne Hafter Hfuel Hk; [congruence|].
  destruct fuel as [|fuel]; [cbn in Hfuel; lia|].
  cbn in Hfree. apply andb_true_iff in Hfree. destruct Hfree as [Hc Hfree].
  change (String c body ++ after) with (String c (body ++ after)).
  rewrite plus_loop_S, rmatch_dot_cons.
  unfold dot_ok. rewrite Hc. cbn [orb].
  destruct body as [|c2 body].
  - change (EmptyString ++ after) with after.
    rewrite plus_dot_at_eol by assumption. exact Hk.
  - rewrite (IH (Some c) after (c :: chars) g k fuel m); try assumption.
    + reflexivity.
    + discriminate.
    + cbn in *. lia.
Qed.

Lemma push_chars_text : forall s chars,
  string_of_list_ascii (rev (push_chars s chars))
  = string_of_list_ascii (rev chars) ++ s.
Proof.
  induction s as [|c s IH]; intros chars; cbn [push_chars].
  - now rewrite append_nil_r.
  - rewrite IH. cbn [rev].
    clear IH. induction (rev chars) as [|x l IHl]; cbn; [reflexivity|].
    now rewrite IHl.
Qed.

Lemma last_of_app : forall a p b, last_of p (a ++ b) = last_of (last_of p a) b.
Proof.
  induction a as [|c a IH]; intros p b; cbn; [reflexivity|]. apply IH.
Qed.

Lemma sub_from_S : forall r repl fuel p s,
  sub_from r repl (S fuel) p s =
  match match_at r p s with
  | Some m => repl (group m) ++ sub_from r repl fuel (prev m) (rest m)
  | None =>
      match s with
      | EmptyString => EmptyString
      | String c t => String c (sub_from r repl fuel (Some c) t)
      end
  end.
Proof. reflexivity. Qed.

Lemma at_eol_tail_text : forall lines, at_eol (tail_text lines) = true.
Proof. now destruct lines. Qed.

Section HeadingRewrite.

Variable pre : string.
Variable name : string.
Hypothesis pre_newline_free : newline_free pre = true.
Hypothesis pre_not_empty : pre <> EmptyString.

Lemma match_at_line_re : forall p s,
  match_at (line_re pre) p s =
  if at_bol p
  then match strip_prefix pre s with
       | Some t =>
           plus_loop (rmatch (Dot false)) true
             (fun st1 => rmatch Eol (close_group st1) Some)
             (S (String.length t)) (MState (last_of p pre) t [] None)
       | None => None
       end
  else None.
Proof.
  intros p s. unfold match_at, line_re, any_line.
  change (rmatch (Bol +++ lit pre +++ Group (Plus true (Dot false)) +++ Eol)
            (MState p s [] None) Some)
    with (if at_bol p
          then rmatch (lit pre) (MState p s [] None)
                 (fun st1 =>
                    rmatch (Group (Plus true (Dot false)) +++ Eol) st1 Some)
          else None).
  destruct (at_bol p); [|reflexivity].
  rewrite rmatch_lit. destruct (strip_prefix pre s); reflexivity.
Qed.

Lemma line_re_match : forall p body after,
  at_bol p = true ->
  newline_free body = true ->
  body <> EmptyString ->
  at_eol after = true ->
  exists m,
    match_at (line_re pre) p (pre ++ body ++ after) = Some m
    /\ group m = body
    /\ rest m = after
    /\ prev m = last_of (last_of p pre) body.
Proof.
  intros p body after Hp Hfree Hne Hafter.
  exists (close_group
            (MState (last_of (last_of p pre) body) after (push_chars body [])
                    None)).
  split; [|split; [|split]]; try reflexivity.
  - rewrite match_at_line_re, Hp, strip_prefix_app.
    apply plus_dot_line; try assumption.
    + rewrite length_append. lia.
    + cbn [rmatch close_group rest]. now rewrite Hafter.
  - unfold group, close_group. cbn [group1 cap]. now rewrite push_chars_text.
Qed.

Lemma line_re_no_match : forall p line after,
  at_eol after = true ->
  (forall c body, strip_prefix pre line <> Some (String c body)) ->
  match_at (line_re pre) p (line ++ after) = None.
Proof.
  intros p line after Hafter Hnot.
  rewrite match_at_line_re. destruct (at_bol p); [|reflexivity].
  destruct (strip_prefix pre line) as [[|c body]|] eqn:E.
  - apply strip_prefix_Some in E. rewrite append_nil_r in E. subst line.
    rewrite strip_prefix_app. now apply plus_dot_at_eol.
  - now destruct (Hnot c body).
  - now rewrite strip_prefix_line_None.
Qed.

Lemma line_re_not_bol : forall p s,
  at_bol p = false -> match_at (line_re pre) p s = None.
Proof. intros p s H. rewrite match_at_line_re. now rewrite H. Qed.

Lemma line_re_at_newline : forall p s,
  match_at (line_re pre) p (String nl_char s) = None.
Proof.
  intros p s. rewrite match_at_line_re. destruct (at_bol p); [|reflexivity].
  destruct pre as [|c t]; [congruence|].
  cbn in pre_newline_free. apply andb_true_iff in pre_newline_free.
  destruct pre_newline_free as [Hc _]. apply negb_true_iff in Hc.
  cbn [strip_prefix]. now rewrite Hc.
Qed.

(** Away from the start of a line the text is copied up to the end
    of the line. *)
Lemma sub_from_copy : forall line p after fuel,
  at_bol p = false ->
  newline_free line = true ->
  sub_from (line_re pre) (tag name) (String.length line + fuel) p (line ++ after)
  = line ++ sub_from (line_re pre) (tag name) fuel (last_of p line) after.
Proof.
  induction line as [|c line IH]; intros p after fuel Hp Hfree;
    [reflexivity|].
  cbn in Hfree. apply andb_true_iff in Hfree. destruct Hfree as [Hc Hfree].
  apply negb_true_iff in Hc.
  change (String.length (String c line) + fuel)
    with (S (String.length line + fuel)).
  change (String c line ++ after) with (String c (line ++ after)).
  rewrite sub_from_S, (line_re_not_bol _ _ Hp).
  cbn [String.append last_of]. f_equal. now apply IH.
Qed.

(** One line, from its start. *)
Lemma sub_from_line : forall line after p fuel,
  at_bol p = true ->
  newline_free line = true ->
  at_eol after = true ->
  String.length (line ++ after) < fuel ->
  exists fuel',
    String.length after < fuel'
    /\ sub_from (line_re pre) (tag name) fuel p (line ++ after)
       = heading_line pre name line
         ++ sub_from (line_re pre) (tag name) fuel' (last_of p line) after.
Proof.
  intros line after p fuel Hp Hfree Hafter Hfuel.
  rewrite length_append in Hfuel.
  destruct fuel as [|fuel]; [lia|].
  unfold heading_line.
  destruct (strip_prefix pre line) as [[|c body]|] eqn:E.
  - (* the mark alone *)
    pose proof (strip_prefix_Some _ _ _ E) as Hline.
    rewrite append_nil_r in Hline.
    assert (Hnot : forall c body, strip_prefix pre line <> Some (String c body))
      by (intros; rewrite E; discriminate).
    destruct line as [|c line]; [congruence|].
    cbn in Hfree. apply andb_true_iff in Hfree. destruct Hfree as [Hc Hfree].
    apply negb_true_iff in Hc.
    exists (fuel - String.length line). split; [cbn in Hfuel; lia|].
    rewrite sub_from_S, (line_re_no_match _ _ _ Hafter Hnot).
    change (String c line ++ after) with (String c (line ++ after)).
    cbv iota. cbn [String.append last_of]. f_equal.
    replace fuel with (String.length line + (fuel - String.length line))
      at 1 by (cbn in Hfuel; lia).
    now apply sub_from_copy.
  - (* a heading *)
    pose proof (strip_prefix_Some _ _ _ E) as Hline. subst line.
    rewrite newline_free_app in Hfree. apply andb_true_iff in Hfree.
    destruct Hfree as [_ Hbody].
    destruct (line_re_match p (String c body) after Hp Hbody) as
      (m & Hm & Hg & Hr & Hprev); [discriminate|assumption|].
    exists fuel. split.
    + rewrite length_append in Hfuel. cbn in Hfuel. lia.
    + rewrite sub_from_S, append_assoc, Hm, Hg, Hr, Hprev.
      now rewrite last_of_app.
  - (* no mark *)
    assert (Hnot : forall c body, strip_prefix pre line <> Some (String c body))
      by (intros; rewrite E; discriminate).
    destruct line as [|c line].
    + exists (S fuel). split; [cbn in Hfuel; lia|reflexivity].
    + cbn in Hfree. apply andb_true_iff in Hfree. destruct Hfree as [Hc Hfree].
      apply negb_true_iff in Hc.
      exists (fuel - String.length line). split; [cbn in Hfuel; lia|].
      rewrite sub_from_S, (line_re_no_match _ _ _ Hafter Hnot).
      change (String c line ++ after) with (String c (line ++ after)).
      cbv iota. cbn [String.append last_of]. f_equal.
      replace fuel with (String.length line + (fuel - String.length line))
        at 1 by (cbn in Hfuel; lia).
      now apply sub_from_copy.
Qed.

(** The lines after the first. *)
Lemma sub_from_tail_text : forall lines p fuel,
  Forall (fun l => newline_free l = true) lines ->
  String.length (tail_text lines) < fuel ->
  sub_from (line_re pre) (tag name) fuel p (tail_text lines)
  = tail_text (map (heading_line pre name) lines).
Proof.
  induction lines as [|l more IH]; intros p fuel Hfree Hfuel.
  - destruct fuel; [reflexivity|].
    cbn [tail_text]. rewrite sub_from_S, match_at_line_re.
    destruct (at_bol p); [|reflexivity].
    destruct pre; [congruence|reflexivity].
  - inversion Hfree as [|? ? Hl Hmore]; subst.
    cbn [tail_text map] in *.
    change (nl ++ l ++ tail_text more)
      with (String nl_char (l ++ tail_text more)) in *.
    destruct fuel as [|fuel]; [lia|].
    rewrite sub_from_S, line_re_at_newline.
    destruct (sub_from_line l (tail_text more) (Some nl_char) fuel)
      as (fuel' & Hfuel' & ->); try assumption.
    + reflexivity.
    + apply at_eol_tail_text.
    + cbn [String.length] in Hfuel. lia.
    + rewrite (IH _ _ Hmore Hfuel'). reflexivity.
Qed.

(** A heading rewrite maps the lines of the text one by one. *)
Lemma re_sub_lines : forall lines,
  Forall (fun l => newline_free l = true) lines ->
  re_sub (line_re pre) (tag name) (join nl lines)
  = join nl (map (heading_line pre name) lines).
Proof.
  intros [|l more] Hfree.
  - cbn [join map]. unfold re_sub. cbn [String.length].
    rewrite sub_from_S, match_at_line_re. cbn [at_bol].
    destruct pre; [congruence|reflexivity].
  - inversion Hfree as [|? ? Hl Hmore]; subst.
    cbn [map]. rewrite !join_tail_text. unfold re_sub.
    destruct (sub_from_line l (tail_text more) None
                (S (String.length (l ++ tail_text more))))
      as (fuel' & Hfuel' & ->); try assumption.
    + reflexivity.
    + apply at_eol_tail_text.
    + lia.
    + now rewrite (sub_from_tail_text _ _ _ Hmore Hfuel').
Qed.

End HeadingRewrite.

(** ** Markdown to HTML *)

(** C2.  The markdown converter is the composition of eight rewrites,
    each over the whole text, in this order: heading marks of level
    three, two and one at the start of a line; bold; italic; fenced
    code, which may run over several lines; inline code; and last the
    replacement of every pair of consecutive newlines by a paragraph
    boundary; the result is wrapped in one paragraph.  Each heading
    rewrite maps the lines of the text one by one.  The order shows on
    texts where two rewrites compete. *)
Theorem markdown_rewrite_order :
  (forall text : string, _markdown_to_html text = markdownToHtml text)
  /\
  (* headings are anchored at the start of a line, on every line *)
  (forall lines : list string,
      Forall (fun l => newline_free l = true) lines ->
      rewrite_h3 (join nl lines)
      = join nl (map (heading_line "### " "h3") lines)
      /\ rewrite_h2 (join nl lines)
         = join nl (map (heading_line "## " "h2") lines)
      /\ rewrite_h1 (join nl lines)
         = join nl (map (heading_line "# " "h1") lines))
  /\
  _markdown_to_html
    ("# a" ++ nl ++ "x # b" ++ nl ++ "### c" ++ nl ++ "## d" ++ nl ++ "#e")
  = "<p><h1>a</h1>" ++ nl ++ "x # b" ++ nl ++ "<h3>c</h3>" ++ nl
    ++ "<h2>d</h2>" ++ nl ++ "#e</p>"
  /\
  (* bold runs before italic *)
  (_markdown_to_html "**b** and *i*"
   = "<p><strong>b</strong> and <em>i</em></p>"
   /\ apply_rewrites [rewrite_bold; rewrite_italic] "**b**"
      = "<strong>b</strong>"
   /\ apply_rewrites [rewrite_italic; rewrite_bold] "**b**"
      = "<em>*b</em>*")
  /\
  (* fenced code runs before inline code and spans lines *)
  (_markdown_to_html ("```x" ++ nl ++ "y``` and `z`")
   = "<p><pre><code>x" ++ nl ++ "y</code></pre> and <code>z</code></p>"
   /\ _markdown_to_html ("`x" ++ nl ++ "y`") = "<p>`x" ++ nl ++ "y`</p>"
   /\ apply_rewrites [rewrite_fence; rewrite_code] "```x```"
      = "<pre><code>x</code></pre>"
   /\ apply_rewrites [rewrite_code; rewrite_fence] "```x```"
      = "<code>`</code>x<code>`</code>")
  /\
  (* the paragraph rewrite runs last, on every pair of newlines *)
  (_markdown_to_html ("a" ++ nl ++ nl ++ "b" ++ nl ++ nl ++ nl ++ nl ++ "c")
   = "<p>a</p><p>b</p><p></p><p>c</p>"
   /\ _markdown_to_html ("```a" ++ nl ++ nl ++ "b```")
      = "<p><pre><code>a</p><p>b</code></pre></p>").
Proof.
  split; [intros text; reflexivity|].
  split.
  { intros lines Hfree. split; [|split].
    - exact (re_sub_lines "### " "h3" eq_refl ltac:(discriminate) lines Hfree).
    - exact (re_sub_lines "## " "h2" eq_refl ltac:(discriminate) lines Hfree).
    - exact (re_sub_lines "# " "h1" eq_refl ltac:(discriminate) lines Hfree). }
  repeat split; vm_compute; reflexivity.
Qed.

Lemma markdown_rewrite_order_witness :
  let lines := ["# Report"; "see # note"; "### Details"; "#"; "# "] in
  Forall (fun l => newline_free l = true) lines
  /\ rewrite_h1 (join nl lines)
     = join nl ["<h1>Report</h1>"; "see # note"; "### Details"; "#"; "# "].
Proof.
  intros lines.
  assert (Hfree : Forall (fun l => newline_free l = true) lines)
    by (repeat constructor).
  split; [exact Hfree|].
  exact (proj2 (proj2 (proj1 (proj2 markdown_rewrite_order) lines Hfree))).
Defined.

(** * Further properties of the code *)

(** ** The pairing loses nothing *)

Lemma pairing_spec_plots : forall ms ps, pair_plots (pairing_spec ms ps) = ps.
Proof.
  induction ms as [|m ms IH]; intros ps.
  - cbn [pairing_spec]. unfold pair_plots, drain_plots.
    induction ps as [|p ps IHp]; [reflexivity|]. cbn in *. now rewrite IHp.
  - destruct ps as [|p ps].
    + cbn [pairing_spec]. unfold pair_plots, leftover_markdown.
      clear IH. induction (m :: ms) as [|x l IHl]; [reflexivity|].
      cbn in *. exact IHl.
    + cbn [pairing_spec]. unfold pair_plots in *. cbn. now rewrite IH.
Qed.

Lemma pairing_spec_texts : forall ms ps, pair_texts (pairing_spec ms ps) = ms.
Proof.
  induction ms as [|m ms IH]; intros ps.
  - cbn [pairing_spec]. unfold pair_texts, drain_plots.
    induction ps as [|p ps IHp]; [reflexivity|]. cbn in *. exact IHp.
  - destruct ps as [|p ps].
    + cbn [pairing_spec]. unfold pair_texts, leftover_markdown.
      clear IH. induction (m :: ms) as [|x l IHl]; [reflexivity|].
      cbn in *. now rewrite IHl.
    + cbn [pairing_spec]. unfold pair_texts in *. cbn. now rewrite IH.
Qed.

Lemma pairing_spec_no_empty_pair : forall ms ps,
  Forall (fun e : pair => fst e <> None \/ snd e <> []) (pairing_spec ms ps).
Proof.
  induction ms as [|m ms IH]; intros ps.
  - cbn [pairing_spec]. unfold drain_plots.
    induction ps as [|p ps IHp]; constructor; [right; discriminate|exact IHp].
  - destruct ps as [|p ps].
    + cbn [pairing_spec]. unfold leftover_markdown.
      clear IH. induction (m :: ms) as [|x l IHl]; constructor;
        [left; discriminate|exact IHl].
    + cbn [pairing_spec]. constructor; [left; discriminate|apply IH].
Qed.

(** X1.  On non-empty markdown texts the pairing is lossless and keeps
    the order: the plots of the pairs, put end to end, are the plot
    list; the markdown texts of the pairs are the markdown list; and
    no pair is empty on both sides. *)
Theorem pair_content_lossless :
  forall (c : content) (fuel : nat),
    all_truthy (markdown c) ->
    Nat.max (length (markdown c)) (length (plots c)) < fuel ->
    exists entries : list pair,
      _pair_content fuel c = Some entries
      /\ pair_plots entries = plots c
      /\ pair_texts entries = markdown c
      /\ Forall (fun e : pair => fst e <> None \/ snd e <> []) entries.
Proof.
  intros c fuel Htruthy Hfuel.
  exists (pairing_spec (markdown c) (plots c)).
  split; [now apply pair_content_spec|].
  split; [apply pairing_spec_plots|].
  split; [apply pairing_spec_texts|apply pairing_spec_no_empty_pair].
Qed.

Lemma pair_content_lossless_witness :
  let P1 := Plot "image/png" (JStr "AAAA") (JObj []) in
  let P2 := Plot "image/svg+xml" (JStr "<svg/>") (JObj []) in
  let c := Content "Dashboard" [P1; P2] ["Intro"; "Method"; "Results"] (JObj []) in
  exists entries : list pair,
    _pair_content 4 c = Some entries
    /\ pair_plots entries = [P1; P2]
    /\ pair_texts entries = ["Intro"; "Method"; "Results"]
    /\ Forall (fun e : pair => fst e <> None \/ snd e <> []) entries.
Proof.
  intros P1 P2 c.
  apply (pair_content_lossless c 4).
  - repeat constructor.
  - cbn. lia.
Defined.

(** ** Only supported images are extracted *)

Ltac bind_ok H :=
  match type of H with
  | bind ?r _ = Ok _ =>
      let E := fresh "E" in
      destruct r eqn:E; [cbn [bind] in H|discriminate H]
  end.

Lemma scan_mime_types_supported : forall output d mimes found,
  scan_mime_types output d mimes = Ok found ->
  Forall (fun p => In (mime_type p) mimes) found.
Proof.
  intros output d mimes. induction mimes as [|mime more IH]; intros found H.
  - cbn in H. inversion H. constructor.
  - cbn [scan_mime_types] in H. bind_ok H.
    assert (Hmore : forall l, Forall (fun p => In (mime_type p) more) l ->
                              Forall (fun p => In (mime_type p) (mime :: more)) l).
    { intros l Hl. eapply Forall_impl; [|exact Hl]. intros p Hp. now right. }
    destruct a.
    + bind_ok H. bind_ok H. bind_ok H. inversion H; subst.
      constructor; [now left|]. apply Hmore. now apply IH.
    + apply Hmore. now apply IH.
Qed.

Lemma outputs_loop_supported : forall outputs found,
  outputs_loop outputs = Ok found -> Forall supported_mime found.
Proof.
  induction outputs as [|output more IH]; intros found H.
  - cbn in H. inversion H. constructor.
  - cbn [outputs_loop] in H. bind_ok H.
    destruct (wanted_kind a).
    + bind_ok H. bind_ok H. inversion H; subst.
      apply Forall_app. split; [|now apply IH].
      bind_ok E0. eapply scan_mime_types_supported. eassumption.
    + cbn [bind] in H. bind_ok H. inversion H; subst. now apply IH.
Qed.

Lemma extract_plots_supported : forall cell found,
  _extract_plots_from_cell cell = Ok found -> Forall supported_mime found.
Proof.
  intros cell found H. unfold _extract_plots_from_cell in H.
  bind_ok H. bind_ok H. now apply outputs_loop_supported in H.
Qed.

Lemma cells_loop_supported :
  forall (rt : PyRuntime) cells found_plots found_markdown out_plots out_markdown,
    Forall supported_mime found_plots ->
    cells_loop cells found_plots found_markdown = Ok (out_plots, out_markdown) ->
    Forall supported_mime out_plots.
Proof.
  intros rt cells. induction cells as [|cell more IH];
    intros found_plots found_markdown out_plots out_markdown Hacc H.
  - cbn in H. inversion H; subst. exact Hacc.
  - cbn [cells_loop] in H. bind_ok H.
    destruct (json_is_str a "markdown").
    + bind_ok H. destruct (str_truthy (strip a0)); eapply IH; eassumption.
    + destruct (json_is_str a "code").
      * bind_ok H. eapply IH; [|eassumption].
        apply Forall_app. split; [exact Hacc|].
        eapply extract_plots_supported. eassumption.
      * eapply IH; eassumption.
Qed.

(** X2.  Whatever the notebook holds, every plot of a parsed content
    record carries one of the three supported MIME types: other
    entries of an Output's data (text/plain, image/gif, ...) are never
    extracted. *)
Theorem parsed_plots_supported :
  forall (rt : PyRuntime) (file : loaded) (c : content),
    parse_notebook file = Ok c ->
    Forall supported_mime (plots c).
Proof.
  intros rt file c H. destruct file as [e|notebook]; [discriminate|].
  cbn [parse_notebook] in H.
  bind_ok H. bind_ok H. bind_ok H. bind_ok H. bind_ok H.
  inversion H; subst. cbn [plots]. destruct a3 as [out_plots out_markdown].
  eapply cells_loop_supported; [constructor|eassumption].
Qed.

Lemma parsed_plots_supported_witness :
  let notebook :=
    JObj [("cells",
           JArr [JObj [("cell_type", JStr "code");
                       ("outputs",
                        JArr [JObj [("output_type", JStr "display_data");
                                    ("data",
                                     JObj [("text/plain", JStr "<Figure>");
                                           ("image/gif", JStr "R0lG");
                                           ("image/jpeg", JStr "/9j/")])]])]])] in
  let c := Content "Dashboard" [Plot "image/jpeg" (JStr "/9j/") (JObj [])] []
                   (JObj []) in
  parse_notebook (rt := sample_runtime) (Loaded notebook) = Ok c
  /\ Forall supported_mime (plots c).
Proof.
  intros notebook c.
  assert (H : parse_notebook (rt := sample_runtime) (Loaded notebook) = Ok c)
    by reflexivity.
  split; [exact H|].
  exact (parsed_plots_supported sample_runtime (Loaded notebook) c H).
Defined.

(** ** A title is one trimmed line *)

Lemma lstrip_starts_solid : forall s, starts_solid (lstrip s) = true.
Proof.
  induction s as [|c t IH]; [reflexivity|].
  cbn [lstrip]. destruct (py_isspace c) eqn:E; [exact IH|].
  cbn [starts_solid]. now rewrite E.
Qed.

Lemma lstrip_solid : forall s, starts_solid s = true -> lstrip s = s.
Proof.
  intros [|c t] H; [reflexivity|]. cbn [starts_solid lstrip] in *.
  now destruct (py_isspace c).
Qed.

Lemma rstrip_starts_solid : forall s,
  starts_solid s = true -> starts_solid (rstrip s) = true.
Proof.
  intros [|c t] H; [reflexivity|]. cbn [starts_solid rstrip] in *.
  destruct (py_isspace c) eqn:E; [discriminate|].
  destruct (rstrip t); cbn [starts_solid]; now rewrite E.
Qed.

Lemma rstrip_cons : forall c t,
  rstrip (String c t) =
  match rstrip t with
  | EmptyString => if py_isspace c then EmptyString else String c EmptyString
  | String c' t' => String c (String c' t')
  end.
Proof. reflexivity. Qed.

Lemma rstrip_idempotent : forall s, rstrip (rstrip s) = rstrip s.
Proof.
  induction s as [|c t IH]; [reflexivity|].
  rewrite rstrip_cons. destruct (rstrip t) as [|c' t'] eqn:E.
  - destruct (py_isspace c) eqn:Ec; [reflexivity|].
    rewrite rstrip_cons. cbn [rstrip]. now rewrite Ec.
  - rewrite rstrip_cons. now rewrite IH.
Qed.

Lemma strip_idempotent : forall s, strip (strip s) = strip s.
Proof.
  intros s. unfold strip.
  rewrite (lstrip_solid (rstrip (lstrip s))).
  - apply rstrip_idempotent.
  - apply rstrip_starts_solid, lstrip_starts_solid.
Qed.

Lemma lstrip_newline_free : forall s,
  newline_free s = true -> newline_free (lstrip s) = true.
Proof.
  induction s as [|c t IH]; intros H; [reflexivity|].
  cbn [lstrip]. destruct (py_isspace c); [|exact H].
  cbn [newline_free] in H. apply andb_true_iff in H. now apply IH.
Qed.

Lemma rstrip_newline_free : forall s,
  newline_free s = true -> newline_free (rstrip s) = true.
Proof.
  induction s as [|c t IH]; intros H; [reflexivity|].
  cbn [newline_free] in H. apply andb_true_iff in H. destruct H as [Hc Ht].
  cbn [rstrip]. specialize (IH Ht). destruct (rstrip t) as [|c' t'].
  - destruct (py_isspace c); [reflexivity|]. cbn [newline_free].
    now rewrite Hc.
  - cbn [newline_free] in *. now rewrite Hc, IH.
Qed.

Lemma strip_newline_free : forall s,
  newline_free s = true -> newline_free (strip s) = true.
Proof.
  intros s H. now apply rstrip_newline_free, lstrip_newline_free.
Qed.

(** What a repetition of one-character steps hands to its
    continuation: a state reached by consuming characters that pass
    the test. *)
Lemma plus_eat_inv :
  forall (ok : ascii -> bool)
         (one : mstate -> (mstate -> option mstate) -> option mstate),
    (forall st k, one st k = eat ok st k) ->
    forall greedy k fuel st m,
      plus_loop one greedy k fuel st = Some m ->
      exists body st',
        all_chars ok body = true
        /\ cap st' = push_chars body (cap st)
        /\ k st' = Some m.
Proof.
  intros ok one Hone greedy k fuel.
  induction fuel as [|fuel IH]; intros st m H; [discriminate|].
  rewrite plus_loop_S, Hone in H. unfold eat in H.
  destruct (rest st) as [|c t]; [discriminate|].
  destruct (ok c) eqn:Ec; [|discriminate].
  set (st1 := MState (Some c) t (c :: cap st) (group1 st)) in *.
  assert (Hhere : k st1 = Some m ->
                  exists body st', all_chars ok body = true
                                   /\ cap st' = push_chars body (cap st)
                                   /\ k st' = Some m).
  { intros Hk. exists (String c EmptyString), st1.
    cbn [all_chars push_chars]. rewrite Ec. now repeat split. }
  assert (Hmore : plus_loop one greedy k fuel st1 = Some m ->
                  exists body st', all_chars ok body = true
                                   /\ cap st' = push_chars body (cap st)
                                   /\ k st' = Some m).
  { intros Hl. destruct (IH st1 m Hl) as (body & st' & Hb & Hc & Hk).
    exists (String c body), st'. cbn [all_chars push_chars].
    rewrite Ec, Hb. now repeat split. }
  destruct greedy.
  - destruct (plus_loop one true k fuel st1) as [m'|] eqn:El.
    + inversion H; subst. now apply Hmore.
    + now apply Hhere.
  - destruct (k st1) as [m'|] eqn:Ek.
    + inversion H; subst. now apply Hhere.
    + now apply Hmore.
Qed.

Lemma all_chars_dot_newline_free : forall s,
  all_chars (dot_ok false) s = true -> newline_free s = true.
Proof.
  induction s as [|c t IH]; intros H; [reflexivity|].
  cbn [all_chars newline_free] in *. apply andb_true_iff in H.
  destruct H as [Hc Ht]. unfold dot_ok in Hc. cbn [orb] in Hc.
  now rewrite Hc, IH.
Qed.

(** The group of a title match holds no newline. *)
Lemma title_match_newline_free : forall p s m,
  match_at title_re p s = Some m -> newline_free (group m) = true.
Proof.
  intros p s m H. unfold match_at, title_re, any_line in H.
  change (rmatch (Bol +++ lit "#" +++ Plus true Space
                  +++ Group (Plus true (Dot false)) +++ Eol)
            (MState p s [] None) Some)
    with (if at_bol p
          then eat (Ascii.eqb "#") (MState p s [] None)
                 (fun st1 =>
                    plus_loop (rmatch Space) true
                      (fun st2 =>
                         plus_loop (rmatch (Dot false)) true
                           (fun st3 =>
                              if at_eol (rest st3)
                              then Some (close_group st3) else None)
                           (S (String.length (rest (open_group st2))))
                           (open_group st2))
                      (S (String.length (rest st1))) st1)
          else None) in H.
  destruct (at_bol p); [|discriminate].
  unfold eat in H. cbn [rest] in H.
  destruct s as [|c t]; [discriminate|].
  destruct (Ascii.eqb "#" c); [|discriminate].
  apply (plus_eat_inv py_isspace (rmatch Space)) in H; [|reflexivity].
  destruct H as (_ & st2 & _ & _ & H).
  apply (plus_eat_inv (dot_ok false) (rmatch (Dot false))) in H; [|reflexivity].
  destruct H as (body & st3 & Hbody & Hcap & H).
  destruct (at_eol (rest st3)); [|discriminate].
  inversion H; subst m. unfold group, close_group. cbn [group1].
  rewrite Hcap. cbn [open_group cap]. rewrite push_chars_text. cbn [rev].
  now apply all_chars_dot_newline_free.
Qed.

Lemma search_from_match : forall r s p m,
  search_from r p s = Some m -> exists p' s', match_at r p' s' = Some m.
Proof.
  intros r. induction s as [|c t IH]; intros p m H; cbn [search_from] in H.
  - destruct (match_at r p EmptyString) eqn:E; [|discriminate].
    inversion H; subst. eauto.
  - destruct (match_at r p (String c t)) eqn:E.
    + inversion H; subst. eauto.
    + now apply IH in H.
Qed.

Lemma title_loop_trimmed_line : forall cells t,
  title_loop cells = Ok t -> newline_free t = true /\ strip t = t.
Proof.
  induction cells as [|cell more IH]; intros t H.
  - cbn in H. inversion H; subst. split; reflexivity.
  - cbn [title_loop] in H. bind_ok H.
    destruct (json_is_str a "markdown"); [|now apply IH].
    bind_ok H. bind_ok H.
    destruct (re_search title_re a1) as [m|] eqn:Em; [|now apply IH].
    inversion H; subst. split; [|apply strip_idempotent].
    apply strip_newline_free.
    apply search_from_match in Em. destruct Em as (p' & s' & Hm).
    now apply title_match_newline_free in Hm.
Qed.

(** X3.  A title the scan returns is always one line with no
    whitespace at either end: it holds no newline and trimming it
    again changes nothing. *)
Theorem extracted_title_trimmed_line :
  forall (notebook : json) (t : string),
    _extract_title notebook = Ok t ->
    newline_free t = true /\ strip t = t.
Proof.
  intros notebook t H. unfold _extract_title in H.
  bind_ok H. bind_ok H. now apply title_loop_trimmed_line in H.
Qed.

Lemma extracted_title_trimmed_line_witness :
  let source := "intro" ++ nl ++ "#  " ++ String "009" " Sales  report   "
                ++ nl ++ "more" in
  _extract_title (markdown_notebook source) = Ok "Sales  report"
  /\ newline_free "Sales  report" = true
  /\ strip "Sales  report" = "Sales  report".
Proof.
  intros source.
  assert (H : _extract_title (markdown_notebook source) = Ok "Sales  report")
    by (vm_compute; reflexivity).
  split; [exact H|].
  exact (extracted_title_trimmed_line (markdown_notebook source) _ H).
Defined.

(** ** A title comes from a markdown text that is kept *)

Lemma rstrip_empty_all_space : forall s,
  rstrip s = EmptyString -> all_chars py_isspace s = true.
Proof.
  induction s as [|c t IH]; intros H; [reflexivity|].
  rewrite rstrip_cons in H. cbn [all_chars].
  destruct (rstrip t) as [|c' t']; [|discriminate].
  destruct (py_isspace c); [|discriminate]. now rewrite IH.
Qed.

Lemma lstrip_all_space : forall s,
  all_chars py_isspace (lstrip s) = true -> all_chars py_isspace s = true.
Proof.
  induction s as [|c t IH]; intros H; [reflexivity|].
  cbn [lstrip] in H. cbn [all_chars].
  destruct (py_isspace c) eqn:E; [now rewrite IH|].
  cbn [all_chars] in H. now rewrite E in H.
Qed.

Lemma blank_all_space : forall s,
  str_truthy (strip s) = false -> all_chars py_isspace s = true.
Proof.
  intros s H. apply lstrip_all_space, rstrip_empty_all_space.
  unfold strip in H. now destruct (rstrip (lstrip s)).
Qed.

Lemma match_at_title_empty : forall p, match_at title_re p EmptyString = None.
Proof. intros p. unfold match_at, title_re. cbn. now destruct (at_bol p). Qed.

(** A text in which the title pattern matches holds the heading mark,
    so it is not blank. *)
Lemma title_search_not_blank : forall s p m,
  search_from title_re p s = Some m -> all_chars py_isspace s = false.
Proof.
  induction s as [|c t IH]; intros p m H; cbn [search_from] in H.
  - now rewrite match_at_title_empty in H.
  - cbn [all_chars].
    destruct (Ascii.eqb hash_char c) eqn:Ec.
    + apply Ascii.eqb_eq in Ec. subst c. reflexivity.
    + rewrite match_at_title_none in H
        by (rewrite Ec; apply andb_false_r).
      rewrite (IH _ _ H). apply andb_false_r.
Qed.

Lemma cells_loop_grows :
  forall (rt : PyRuntime) cells found_plots found_markdown out_plots out_markdown,
    cells_loop cells found_plots found_markdown = Ok (out_plots, out_markdown) ->
    exists more_markdown, out_markdown = (found_markdown ++ more_markdown)%list.
Proof.
  intros rt cells. induction cells as [|cell more IH];
    intros found_plots found_markdown out_plots out_markdown H.
  - cbn in H. inversion H; subst. exists []. now rewrite app_nil_r.
  - cbn [cells_loop] in H. bind_ok H.
    destruct (json_is_str a "markdown").
    + bind_ok H. destruct (str_truthy (strip a0)).
      * apply IH in H. destruct H as [extra ->].
        exists (a0 :: extra). now rewrite <- app_assoc.
      * now apply IH in H.
    + destruct (json_is_str a "code").
      * bind_ok H. now apply IH in H.
      * now apply IH in H.
Qed.

(** What the title scan joins and what the cell loop keeps are the
    same text, unless the source is neither a string nor a list. *)
Lemma text_of_joined : forall (rt : PyRuntime) src source text,
  py_join src = Ok source ->
  text_of src = Ok text ->
  text = source \/ exists v, text = py_repr v.
Proof.
  intros rt src source text Hjoin Htext.
  destruct src; cbn [text_of] in Htext;
    try (inversion Htext; subst; right; eauto; fail).
  - inversion Htext; subst. left.
    unfold py_join in Hjoin. cbn [py_iter bind] in Hjoin.
    rewrite join_items_chars in Hjoin. now inversion Hjoin.
  - left. rewrite Hjoin in Htext. now inversion Htext.
Qed.

Lemma title_loop_default_when_nothing_kept :
  forall (rt : PyRuntime),
    (forall v, not_blank (py_repr v)) ->
    forall cells found_plots out_plots t,
      title_loop cells = Ok t ->
      cells_loop cells found_plots [] = Ok (out_plots, []) ->
      t = "Dashboard".
Proof.
  intros rt Hrepr cells. induction cells as [|cell more IH];
    intros found_plots out_plots t Ht Hc.
  - cbn in Ht. now inversion Ht.
  - cbn [title_loop] in Ht. cbn [cells_loop] in Hc.
    destruct (py_getitem cell "cell_type") as [cell_type|e]; [|discriminate].
    cbn [bind] in Ht, Hc.
    destruct (json_is_str cell_type "markdown").
    + unfold _process_markdown_cell in Hc.
      destruct (py_get cell "source" (JArr [])) as [src|e]; [|discriminate].
      cbn [bind] in Ht, Hc.
      destruct (py_join src) as [source|e] eqn:Hjoin; [|discriminate].
      destruct (text_of src) as [text|e] eqn:Htext; [|discriminate].
      cbn [bind] in Ht, Hc.
      destruct (str_truthy (strip text)) eqn:Hkeep.
      * apply cells_loop_grows in Hc. destruct Hc as [extra Hc].
        cbn in Hc. discriminate.
      * destruct (re_search title_re source) as [m|] eqn:Em;
          [|now apply (IH _ _ _ Ht Hc)].
        exfalso.
        destruct (text_of_joined rt src source text Hjoin Htext)
          as [->|[v ->]].
        -- apply title_search_not_blank in Em.
           apply blank_all_space in Hkeep. congruence.
        -- apply (Hrepr v). now destruct (strip (py_repr v)).
    + destruct (json_is_str cell_type "code").
      * destruct (_extract_plots_from_cell cell); [|discriminate].
        cbn [bind] in Hc. now apply (IH _ _ _ Ht Hc).
      * now apply (IH _ _ _ Ht Hc).
Qed.

(** X4.  A parsed content record without markdown text has the
    default title: a heading can only be found in a markdown cell
    whose text is kept.  (The text Python prints for a value that is
    not a string is never blank.) *)
Theorem no_markdown_default_title :
  forall (rt : PyRuntime),
    (forall v, not_blank (py_repr v)) ->
    forall (file : loaded) (c : content),
      parse_notebook file = Ok c ->
      markdown c = [] ->
      title c = "Dashboard".
Proof.
  intros rt Hrepr file c H Hmd.
  destruct file as [e|notebook]; [discriminate|].
  cbn [parse_notebook] in H. unfold _extract_title in H.
  destruct (py_get notebook "cells" (JArr [])) as [cells|e]; [|discriminate].
  cbn [bind] in H.
  destruct (py_iter cells) as [items|e]; [|discriminate].
  cbn [bind] in H.
  destruct (title_loop items) as [t|e] eqn:Ht; [|discriminate].
  cbn [bind] in H.
  destruct (py_get notebook "metadata" (JObj [])) as [meta|e]; [|discriminate].
  cbn [bind] in H.
  destruct (cells_loop items [] []) as [[out_plots out_markdown]|e] eqn:Hc;
    [|discriminate].
  cbn [bind fst snd] in H. inversion H; subst c. cbn [markdown title] in *.
  subst out_markdown.
  exact (title_loop_default_when_nothing_kept rt Hrepr _ _ _ _ Ht Hc).
Qed.

Lemma no_markdown_default_title_witness :
  let notebook :=
    JObj [("cells",
           JArr [JObj [("cell_type", JStr "markdown"); ("source", JArr [])];
                 JObj [("cell_type", JStr "code");
                       ("source", JStr "# Not a title");
                       ("outputs", JArr [])]])] in
  let c := Content "Dashboard" [] [] (JObj []) in
  (forall v, not_blank (py_repr (PyRuntime := sample_runtime) v))
  /\ parse_notebook (rt := sample_runtime) (Loaded notebook) = Ok c
  /\ title c = "Dashboard".
Proof.
  intros notebook c.
  assert (Hrepr : forall v, not_blank (py_repr (PyRuntime := sample_runtime) v))
    by (intros v; unfold not_blank; discriminate).
  assert (H : parse_notebook (rt := sample_runtime) (Loaded notebook) = Ok c)
    by reflexivity.
  split; [exact Hrepr|]. split; [exact H|].
  exact (no_markdown_default_title sample_runtime Hrepr (Loaded notebook) c H
           eq_refl).
Defined.

(** ** The content of a well-shaped document *)

Lemma cells_loop_shaped_spec :
  forall (rt : PyRuntime) cells views,
    Forall2 reads_as cells views ->
    Forall cell_shaped cells ->
    forall found_plots found_markdown,
      cells_loop cells found_plots found_markdown
      = Ok ((found_plots ++ flat_map cell_plots cells)%list,
            (found_markdown ++ kept_texts views)%list).
Proof.
  intros rt cells views Hread.
  induction Hread as [|cell view cells views Hview _ IH];
    intros Hshape found_plots found_markdown.
  - cbn. now rewrite !app_nil_r.
  - inversion Hshape as [|? ? Hcell Hrest]; subst.
    destruct Hview as (fields & cell_type & -> & Htype & Hview).
    destruct Hcell as (fields' & Heq & Hkind). inversion Heq; subst fields'.
    cbn [cells_loop py_getitem]. rewrite Htype. cbn [bind].
    destruct Hkind as [[Hct Hsrc]|[Hct Hout]];
      rewrite Htype in Hct; inversion Hct; subst cell_type.
    + change (json_is_str (JStr "markdown") "markdown") with true in *.
      cbv iota. destruct view as [source|]; [|discriminate].
      destruct Hview as [_ Hjoin].
      assert (Htext : _process_markdown_cell (JObj fields) = Ok source).
      { unfold _process_markdown_cell. cbn [py_get].
        destruct Hsrc as [Hnone|[[s0 Hs]|[fragments Hf]]].
        - rewrite Hnone in *. exact Hjoin.
        - rewrite Hs in *. cbn [or_default bind text_of] in *.
          unfold py_join in Hjoin. cbn [py_iter bind] in Hjoin.
          rewrite join_items_chars in Hjoin. exact Hjoin.
        - rewrite Hf in *. exact Hjoin. }
      rewrite Htext. cbn [bind].
      cbn [flat_map kept_texts cell_plots]. rewrite Htype.
      cbn [or_default]. change (json_is_str (JStr "markdown") "code") with false.
      cbv iota. cbn [app]. fold (kept_texts views).
      destruct (str_truthy (strip source)); rewrite (IH Hrest).
      * now rewrite <- app_assoc.
      * reflexivity.
    + change (json_is_str (JStr "code") "markdown") with false in *.
      change (json_is_str (JStr "code") "code") with true. cbv iota.
      destruct view as [source|]; [destruct Hview; discriminate|].
      assert (Hplots : _extract_plots_from_cell (JObj fields)
                       = Ok (cell_plots (JObj fields))).
      { unfold _extract_plots_from_cell, cell_plots. cbn [py_get].
        rewrite Htype. cbn [or_default].
        change (json_is_str (JStr "code") "code") with true. cbv iota.
        destruct Hout as [Hnone|(outputs & Hget & Hshaped)].
        - now rewrite Hnone.
        - rewrite Hget. cbn [bind py_iter]. now apply outputs_loop_spec. }
      rewrite Hplots. cbn [bind]. rewrite (IH Hrest).
      cbn [flat_map kept_texts app]. fold (kept_texts views).
      now rewrite <- app_assoc.
Qed.

(** X5.  On a document of the expected shape the content record is
    fully determined and keeps the cell order: the title is the first
    heading found, the plots are those of the code cells in cell
    order, the markdown list holds the texts of the markdown cells
    that are not blank in cell order, and the metadata is passed
    through (an empty mapping when absent). *)
Theorem parse_shaped_document :
  forall (rt : PyRuntime) (fields : list (string * json)) (cells : list json),
    dict_get "cells" fields = Some (JArr cells) ->
    Forall cell_shaped cells ->
    exists views : list cell_view,
      Forall2 reads_as cells views
      /\ parse_notebook (Loaded (JObj fields))
         = Ok (Content (title_of views)
                       (flat_map cell_plots cells)
                       (kept_texts views)
                       (or_default (JObj []) (dict_get "metadata" fields))).
Proof.
  intros rt fields cells Hcells Hshape.
  destruct (cells_shaped_read cells Hshape) as [views Hviews].
  exists views. split; [exact Hviews|].
  cbn [parse_notebook].
  rewrite (extract_title_views _ _ _ Hcells Hviews).
  cbn [bind py_get]. rewrite Hcells.
  destruct (dict_get "metadata" fields); cbn [bind py_iter or_default];
    rewrite (cells_loop_shaped_spec rt cells views Hviews Hshape);
    reflexivity.
Qed.

Lemma parse_shaped_document_witness :
  let text1 := JObj [("cell_type", JStr "markdown");
                     ("source", JArr [JStr "# Sales"; JStr " report"])] in
  let blank := JObj [("cell_type", JStr "markdown"); ("source", JStr "  ")] in
  let code :=
    JObj [("cell_type", JStr "code");
          ("outputs",
           JArr [JObj [("output_type", JStr "display_data");
                       ("data", JObj [("image/png", JStr "AAAA")])]])] in
  let text2 := JObj [("cell_type", JStr "markdown"); ("source", JStr "Notes")] in
  let cells := [text1; blank; code; text2] in
  let fields := [("cells", JArr cells)] in
  Forall cell_shaped cells
  /\ exists views : list cell_view,
       Forall2 reads_as cells views
       /\ parse_notebook (rt := sample_runtime) (Loaded (JObj fields))
          = Ok (Content (title_of views)
                        (flat_map cell_plots cells)
                        (kept_texts views)
                        (JObj [])).
Proof.
  intros text1 blank code text2 cells fields.
  assert (Hshape : Forall cell_shaped cells).
  { repeat constructor.
    - eexists. split; [reflexivity|]. left. split; [reflexivity|].
      right. right. exists ["# Sales"; " report"]. reflexivity.
    - eexists. split; [reflexivity|]. left. split; [reflexivity|].
      right. left. eexists. reflexivity.
    - eexists. split; [reflexivity|]. right. split; [reflexivity|].
      right. eexists. split; [reflexivity|].
      repeat constructor. eexists. split; [reflexivity|].
      intros _. right. eexists. reflexivity.
    - eexists. split; [reflexivity|]. left. split; [reflexivity|].
      right. left. eexists. reflexivity. }
  split; [exact Hshape|].
  exact (parse_shaped_document sample_runtime fields cells eq_refl Hshape).
Defined.

(** ** When rendering fails *)

Lemma join_items_outcome : forall items,
  (forallb is_str items = true -> exists text, join_items items = Ok text)
  /\ (forallb is_str items = false -> join_items items = Err TypeError).
Proof.
  induction items as [|v items [IHok IHerr]]; split; intros H;
    try discriminate.
  - now exists EmptyString.
  - cbn [forallb] in H. apply andb_true_iff in H. destruct H as [Hv Hrest].
    destruct v; try discriminate. destruct (IHok Hrest) as [text Htext].
    exists (s ++ text). cbn [join_items]. now rewrite Htext.
  - cbn [forallb] in H. destruct v; try reflexivity.
    cbn [is_str andb] in H. cbn [join_items]. now rewrite (IHerr H).
Qed.

Lemma plot_to_html_outcome : forall (rt : PyRuntime) p,
  (renderable p = true -> exists html, _plot_to_html p = Ok html)
  /\ (renderable p = false -> _plot_to_html p = Err TypeError).
Proof.
  intros rt [mime payload meta]. unfold renderable, _plot_to_html.
  cbn [data mime_type].
  assert (Htext :
    (renderable (Plot mime payload meta) = true ->
     exists text, text_of payload = Ok text)
    /\ (renderable (Plot mime payload meta) = false ->
        text_of payload = Err TypeError)).
  { unfold renderable. cbn [data].
    destruct payload; try (split; [eexists; reflexivity|discriminate]).
    cbn [text_of]. unfold py_join. cbn [py_iter bind].
    apply join_items_outcome. }
  unfold renderable in Htext. cbn [data] in Htext.
  destruct Htext as [Hok Herr]. split; intros H.
  - destruct (Hok H) as [text ->].
    destruct (String.eqb mime "image/svg+xml"); eexists; reflexivity.
  - rewrite (Herr H). now destruct (String.eqb mime "image/svg+xml").
Qed.

Lemma plots_to_html_outcome : forall (rt : PyRuntime) wrap items,
  (forallb renderable items = true ->
   exists lines, plots_to_html wrap items = Ok lines)
  /\ (forallb renderable items = false ->
      plots_to_html wrap items = Err TypeError).
Proof.
  intros rt wrap. induction items as [|p items [IHok IHerr]]; split; intros H;
    try discriminate.
  - now exists [].
  - cbn [forallb] in H. apply andb_true_iff in H. destruct H as [Hp Hrest].
    destruct (proj1 (plot_to_html_outcome rt p) Hp) as [html Hhtml].
    destruct (IHok Hrest) as [lines Hlines].
    exists (wrap html :: lines). cbn [plots_to_html].
    now rewrite Hhtml, Hlines.
  - cbn [forallb] in H. cbn [plots_to_html].
    destruct (renderable p) eqn:Hp.
    + destruct (proj1 (plot_to_html_outcome rt p) Hp) as [html ->].
      cbn [bind andb] in *. now rewrite (IHerr H).
    + now rewrite (proj2 (plot_to_html_outcome rt p) Hp).
Qed.

Lemma forallb_app_eq : forall (A : Type) (f : A -> bool) (l1 l2 : list A),
  forallb f (l1 ++ l2) = forallb f l1 && forallb f l2.
Proof.
  intros A f l1 l2. induction l1 as [|x l1 IH]; [reflexivity|].
  cbn. rewrite IH. now rewrite andb_assoc.
Qed.

Lemma section_parts_outcome : forall (rt : PyRuntime) i entry,
  (forallb renderable (snd entry) = true ->
   exists lines, section_parts i entry = Ok lines)
  /\ (forallb renderable (snd entry) = false ->
      section_parts i entry = Err TypeError).
Proof.
  intros rt i [md section_plots]. cbn [snd]. unfold section_parts.
  destruct section_plots as [|p more]; split; intros H; try discriminate.
  - eexists. reflexivity.
  - destruct (proj1 (plots_to_html_outcome rt (fun h => h) (p :: more)) H)
      as [lines ->].
    eexists. reflexivity.
  - now rewrite (proj2 (plots_to_html_outcome rt (fun h => h) (p :: more)) H).
Qed.

Lemma sections_outcome : forall (rt : PyRuntime) entries i,
  (forallb renderable (pair_plots entries) = true ->
   exists lines, sections i entries = Ok lines)
  /\ (forallb renderable (pair_plots entries) = false ->
      sections i entries = Err TypeError).
Proof.
  intros rt. induction entries as [|entry entries IH]; intros i; split;
    intros H; try discriminate.
  - now exists [].
  - unfold pair_plots in H. cbn [flat_map] in H.
    rewrite forallb_app_eq in H. apply andb_true_iff in H.
    destruct H as [Hentry Hrest].
    destruct (proj1 (section_parts_outcome rt i entry) Hentry) as [here Hhere].
    destruct (proj1 (IH (S i)) Hrest) as [later Hlater].
    exists (here ++ later)%list. cbn [sections].
    now rewrite Hhere, Hlater.
  - unfold pair_plots in H. cbn [flat_map] in H.
    rewrite forallb_app_eq in H. cbn [sections].
    destruct (forallb renderable (snd entry)) eqn:Hentry.
    + destruct (proj1 (section_parts_outcome rt i entry) Hentry) as [here ->].
      cbn [bind andb] in *. now rewrite (proj2 (IH (S i)) H).
    + now rewrite (proj2 (section_parts_outcome rt i entry) Hentry).
Qed.

Lemma render_outcome :
  forall (rt : PyRuntime) (fuel : nat) (now : string) (c : content)
         (template : string),
    all_truthy (markdown c) ->
    Nat.max (length (markdown c)) (length (plots c)) < fuel ->
    (forallb renderable (plots c) = true ->
     exists html, _create_html_template fuel now c template = Some (Ok html))
    /\ (forallb renderable (plots c) = false ->
        _create_html_template fuel now c template = Some (Err TypeError)).
Proof.
  intros rt fuel now c template Htruthy Hfuel.
  unfold _create_html_template.
  destruct (String.eqb template "minimal");
    [|destruct (String.eqb template "grid")].
  - unfold _minimal_template, minimal_parts, render_parts. split; intros H.
    + match goal with
      | |- context [plots_to_html ?w (plots c)] =>
          destruct (proj1 (plots_to_html_outcome rt w (plots c)) H)
            as [lines ->]
      end.
      eexists. reflexivity.
    + match goal with
      | |- context [plots_to_html ?w (plots c)] =>
          rewrite (proj2 (plots_to_html_outcome rt w (plots c)) H)
      end.
      reflexivity.
  - unfold _grid_template, grid_parts, render_parts. split; intros H.
    + match goal with
      | |- context [plots_to_html ?w (plots c)] =>
          destruct (proj1 (plots_to_html_outcome rt w (plots c)) H)
            as [lines ->]
      end.
      eexists. reflexivity.
    + match goal with
      | |- context [plots_to_html ?w (plots c)] =>
          rewrite (proj2 (plots_to_html_outcome rt w (plots c)) H)
      end.
      reflexivity.
  - unfold _default_template, default_parts, render_parts.
    rewrite (pair_content_spec c fuel Htruthy Hfuel).
    split; intros H; rewrite <- (pairing_spec_plots (markdown c) (plots c)) in H.
    + destruct (proj1 (sections_outcome rt _ 0) H) as [lines ->].
      eexists. reflexivity.
    + now rewrite (proj2 (sections_outcome rt _ 0) H).
Qed.

(** X6.  For a content record with non-empty markdown texts, rendering
    under any template name fails exactly when some plot payload is a
    list that holds something other than strings, and then with
    TypeError; otherwise it returns a page. *)
Theorem render_fails_on_mixed_payload_only :
  forall (rt : PyRuntime) (fuel : nat) (now : string) (c : content)
         (template : string),
    all_truthy (markdown c) ->
    Nat.max (length (markdown c)) (length (plots c)) < fuel ->
    (forallb renderable (plots c) = true ->
     exists html, _create_html_template fuel now c template = Some (Ok html))
    /\ (forallb renderable (plots c) = false ->
        _create_html_template fuel now c template = Some (Err TypeError)).
Proof. exact render_outcome. Qed.

Lemma render_fails_on_mixed_payload_only_witness :
  let good := Plot "image/png" (JArr [JStr "AA"; JStr "AA"]) (JObj []) in
  let bad := Plot "image/png" (JArr [JStr "AA"; JNum "7"]) (JObj []) in
  let c1 := Content "T" [good] ["text"] (JObj []) in
  let c2 := Content "T" [good; bad] ["text"] (JObj []) in
  (exists html,
      _create_html_template (rt := sample_runtime) 3 "now" c1 "grid"
      = Some (Ok html))
  /\ _create_html_template (rt := sample_runtime) 3 "now" c2 "default"
     = Some (Err TypeError).
Proof.
  intros good bad c1 c2. split.
  - apply (proj1 (render_fails_on_mixed_payload_only sample_runtime 3 "now"
                    c1 "grid" ltac:(repeat constructor) ltac:(cbn; lia))).
    reflexivity.
  - apply (proj2 (render_fails_on_mixed_payload_only sample_runtime 3 "now"
                    c2 "default" ltac:(repeat constructor) ltac:(cbn; lia))).
    reflexivity.
Defined.

Lemma not_blank_truthy : forall texts,
  Forall not_blank texts -> all_truthy texts.
Proof.
  intros texts H. eapply Forall_impl; [|exact H].
  intros [|c t] Hs; [now destruct Hs|reflexivity].
Qed.

Lemma parse_markdown_not_blank :
  forall (rt : PyRuntime) (file : loaded) (c : content),
    parse_notebook file = Ok c -> Forall not_blank (markdown c).
Proof.
  intros rt file c H. destruct file as [e|notebook]; [discriminate|].
  cbn [parse_notebook] in H.
  bind_ok H. bind_ok H. bind_ok H. bind_ok H. bind_ok H.
  inversion H; subst. cbn [markdown]. destruct a3 as [out_plots out_markdown].
  eapply cells_loop_not_blank; [constructor|eassumption].
Qed.

(** X7.  Parsing and rendering compose: for every notebook that
    parses, rendering the content record under any template name
    comes to an end (the pairing loop of the default template always
    leaves), and it fails only with TypeError, exactly when an
    extracted payload is a list holding something other than
    strings. *)
Theorem parse_then_render :
  forall (rt : PyRuntime) (file : loaded) (c : content) (fuel : nat)
         (now template : string),
    parse_notebook file = Ok c ->
    Nat.max (length (markdown c)) (length (plots c)) < fuel ->
    (forallb renderable (plots c) = true ->
     exists html, _create_html_template fuel now c template = Some (Ok html))
    /\ (forallb renderable (plots c) = false ->
        _create_html_template fuel now c template = Some (Err TypeError)).
Proof.
  intros rt file c fuel now template Hparse Hfuel.
  apply render_outcome; [|exact Hfuel].
  apply not_blank_truthy. eapply parse_markdown_not_blank. eassumption.
Qed.

Lemma parse_then_render_witness :
  let notebook :=
    JObj [("cells",
           JArr [JObj [("cell_type", JStr "markdown"); ("source", JStr "# T")];
                 JObj [("cell_type", JStr "code");
                       ("outputs",
                        JArr [JObj [("output_type", JStr "display_data");
                                    ("data",
                                     JObj [("image/png",
                                            JArr [JStr "AA"; JNull])])]])]])] in
  let c := Content "T" [Plot "image/png" (JArr [JStr "AA"; JNull]) (JObj [])]
                   ["# T"] (JObj []) in
  parse_notebook (rt := sample_runtime) (Loaded notebook) = Ok c
  /\ _create_html_template (rt := sample_runtime) 2 "now" c "default"
     = Some (Err TypeError).
Proof.
  intros notebook c.
  assert (H : parse_notebook (rt := sample_runtime) (Loaded notebook) = Ok c)
    by reflexivity.
  split; [exact H|].
  apply (proj2 (parse_then_render sample_runtime (Loaded notebook) c 2 "now"
                  "default" H ltac:(cbn; lia))).
  reflexivity.
Defined.

(** ** Text without markup passes unchanged *)

Lemma all_chars_impl : forall (f g : ascii -> bool) s,
  (forall c, f c = true -> g c = true) ->
  all_chars f s = true -> all_chars g s = true.
Proof.
  intros f g s Hfg. induction s as [|c t IH]; intros H; [reflexivity|].
  cbn [all_chars] in *. apply andb_true_iff in H. destruct H as [Hc Ht].
  now rewrite (Hfg c Hc), IH.
Qed.

(** Where no position can start a match the text is copied. *)
Lemma sub_from_skip : forall r repl (ok : ascii -> bool),
  (forall p, match_at r p EmptyString = None) ->
  (forall p c t, ok c = true -> match_at r p (String c t) = None) ->
  forall s fuel p,
    all_chars ok s = true -> sub_from r repl fuel p s = s.
Proof.
  intros r repl ok Hempty Hskip.
  induction s as [|c t IH]; intros fuel p H.
  - destruct fuel; [reflexivity|]. now rewrite sub_from_S, Hempty.
  - destruct fuel; [reflexivity|].
    cbn [all_chars] in H. apply andb_true_iff in H. destruct H as [Hc Ht].
    rewrite sub_from_S, (Hskip _ _ _ Hc). f_equal. now apply IH.
Qed.

(** A pattern that begins with a literal character does not match
    where the text begins with another one. *)
Lemma match_at_lit_empty : forall x pre r2 p,
  match_at (lit (String x pre) +++ r2) p EmptyString = None.
Proof.
  intros x pre r2 p. unfold match_at.
  change (rmatch (lit (String x pre) +++ r2) (MState p EmptyString [] None) Some)
    with (rmatch (lit (String x pre)) (MState p EmptyString [] None)
            (fun st1 => rmatch r2 st1 Some)).
  now rewrite rmatch_lit.
Qed.

Lemma match_at_lit_other : forall x pre r2 p c t,
  Ascii.eqb x c = false ->
  match_at (lit (String x pre) +++ r2) p (String c t) = None.
Proof.
  intros x pre r2 p c t H. unfold match_at.
  change (rmatch (lit (String x pre) +++ r2) (MState p (String c t) [] None) Some)
    with (rmatch (lit (String x pre)) (MState p (String c t) [] None)
            (fun st1 => rmatch r2 st1 Some)).
  rewrite rmatch_lit. cbn [strip_prefix]. now rewrite H.
Qed.

Lemma re_sub_lit_absent : forall x pre r2 repl s,
  all_chars (fun c => negb (Ascii.eqb x c)) s = true ->
  re_sub (lit (String x pre) +++ r2) repl s = s.
Proof.
  intros x pre r2 repl s H. unfold re_sub.
  apply (sub_from_skip _ _ (fun c => negb (Ascii.eqb x c))); [| |exact H].
  - intros p. apply match_at_lit_empty.
  - intros p c t Hc. apply match_at_lit_other. now apply negb_true_iff.
Qed.

Lemma replace_newline_free : forall new s,
  newline_free s = true -> replace (nl ++ nl) new s = s.
Proof.
  intros new. unfold replace.
  induction s as [|c t IH]; intros H; [reflexivity|].
  cbn [newline_free] in H. apply andb_true_iff in H. destruct H as [Hc Ht].
  apply negb_true_iff, Ascii.eqb_neq in Hc.
  cbn [replace_from].
  change (String.prefix (nl ++ nl) (String c t))
    with (if Ascii.ascii_dec nl_char c
          then String.prefix nl t else false).
  destruct (Ascii.ascii_dec nl_char c) as [E|_]; [now destruct Hc|].
  now rewrite IH.
Qed.

Lemma heading_line_no_mark : forall pre name line,
  strip_prefix "#" line = None ->
  heading_line (String "#" pre) name line = line.
Proof.
  intros pre name [|c t] H; [reflexivity|].
  unfold heading_line. cbn [strip_prefix] in *.
  destruct (Ascii.eqb "#" c); [discriminate|reflexivity].
Qed.

Lemma rewrite_heading_single : forall pre name text,
  newline_free pre = true ->
  newline_free text = true ->
  strip_prefix "#" text = None ->
  re_sub (line_re (String "#" pre)) (tag name) text = text.
Proof.
  intros pre name text Hpre Htext Hmark.
  assert (H := re_sub_lines (String "#" pre) name Hpre ltac:(discriminate)
                 [text] ltac:(repeat constructor; assumption)).
  cbn [join map] in H. rewrite H. now apply heading_line_no_mark.
Qed.

(** X8.  A text with no asterisk, no backtick and no newline that
    does not begin with the heading mark passes unchanged and is
    wrapped in one paragraph: nothing else in it is rewritten, and in
    particular the characters that are special in HTML are not
    escaped. *)
Theorem plain_text_verbatim :
  forall text : string,
    all_chars plain_char text = true ->
    strip_prefix "#" text = None ->
    _markdown_to_html text = "<p>" ++ text ++ "</p>".
Proof.
  intros text Hplain Hmark.
  assert (Hfree : newline_free text = true).
  { clear Hmark. induction text as [|c t IH]; [reflexivity|].
    cbn [all_chars newline_free] in *. apply andb_true_iff in Hplain.
    destruct Hplain as [Hc Ht]. unfold plain_char in Hc.
    apply andb_true_iff in Hc. destruct Hc as [_ Hc]. now rewrite Hc, IH. }
  assert (Hstar : all_chars (fun c => negb (Ascii.eqb "*" c)) text = true).
  { apply (all_chars_impl plain_char); [|exact Hplain].
    intros c Hc. unfold plain_char in Hc.
    apply andb_true_iff in Hc. destruct Hc as [Hc _].
    apply andb_true_iff in Hc. now destruct Hc. }
  assert (Htick : all_chars (fun c => negb (Ascii.eqb "`" c)) text = true).
  { apply (all_chars_impl plain_char); [|exact Hplain].
    intros c Hc. unfold plain_char in Hc.
    apply andb_true_iff in Hc. destruct Hc as [Hc _].
    apply andb_true_iff in Hc. now destruct Hc. }
  unfold _markdown_to_html.
  change h3_re with (line_re (String "#" "## ")).
  change h2_re with (line_re (String "#" "# ")).
  change h1_re with (line_re (String "#" " ")).
  rewrite (rewrite_heading_single "## " "h3" text eq_refl Hfree Hmark).
  rewrite (rewrite_heading_single "# " "h2" text eq_refl Hfree Hmark).
  rewrite (rewrite_heading_single " " "h1" text eq_refl Hfree Hmark).
  change bold_re with (lit (String "*" "*") +++ lazy_span false +++ lit "**").
  rewrite (re_sub_lit_absent _ _ _ _ _ Hstar).
  change italic_re with (lit (String "*" EmptyString) +++ lazy_span false +++ lit "*").
  rewrite (re_sub_lit_absent _ _ _ _ _ Hstar).
  change fence_re with (lit (String "`" "``") +++ lazy_span true +++ lit "```").
  rewrite (re_sub_lit_absent _ _ _ _ _ Htick).
  change code_re with (lit (String "`" EmptyString) +++ lazy_span false +++ lit "`").
  rewrite (re_sub_lit_absent _ _ _ _ _ Htick).
  now rewrite replace_newline_free.
Qed.

Lemma plain_text_verbatim_witness :
  let text := "if a < b && c > d: <b>x</b> # note" in
  all_chars plain_char text = true
  /\ strip_prefix "#" text = None
  /\ _markdown_to_html text = "<p>" ++ text ++ "</p>".
Proof.
  intros text.
  assert (Hplain : all_chars plain_char text = true) by reflexivity.
  assert (Hmark : strip_prefix "#" text = None) by reflexivity.
  split; [exact Hplain|]. split; [exact Hmark|].
  exact (plain_text_verbatim text Hplain Hmark).
Defined.

(** ** The paragraph rewrite leaves no blank line *)

Lemma prefix_empty : forall s, String.prefix EmptyString s = true.
Proof. now destruct s. Qed.

Lemma prefix_nl_nl : forall c t,
  String.prefix (nl ++ nl) (String c t) = Ascii.eqb c nl_char && head_nl t.
Proof.
  intros c t.
  change (String.prefix (nl ++ nl) (String c t))
    with (if Ascii.ascii_dec nl_char c then String.prefix nl t else false).
  destruct (Ascii.ascii_dec nl_char c) as [<-|Hne].
  - rewrite Ascii.eqb_refl. cbn [andb]. destruct t as [|b t]; [reflexivity|].
    change (String.prefix nl (String b t))
      with (if Ascii.ascii_dec nl_char b
            then String.prefix EmptyString t else false).
    cbn [head_nl].
    destruct (Ascii.ascii_dec nl_char b) as [<-|Hb].
    + now rewrite Ascii.eqb_refl, prefix_empty.
    + symmetry. apply Ascii.eqb_neq. congruence.
  - symmetry. apply andb_false_iff. left. apply Ascii.eqb_neq. congruence.
Qed.

Lemma replace_head_nl : forall new s,
  head_nl new = false ->
  new <> EmptyString ->
  head_nl (replace_from (nl ++ nl) new 0 s) = true -> head_nl s = true.
Proof.
  intros new [|c t] Hnew Hne H; [discriminate|].
  cbn [replace_from] in H. rewrite prefix_nl_nl in H.
  destruct (Ascii.eqb c nl_char && head_nl t); [|exact H].
  destruct new as [|x new]; [congruence|].
  cbn [String.append head_nl] in *. congruence.
Qed.

Lemma no_blank_line_paragraph_mark : forall s,
  no_blank_line ("</p><p>" ++ s) = no_blank_line s.
Proof. intros s. reflexivity. Qed.

Lemma no_blank_line_open : forall s,
  no_blank_line ("<p>" ++ s) = no_blank_line s.
Proof. intros s. reflexivity. Qed.

Lemma replace_no_blank_line : forall s skip,
  no_blank_line (replace_from (nl ++ nl) "</p><p>" skip s) = true.
Proof.
  induction s as [|c t IH]; intros skip; [reflexivity|].
  cbn [replace_from]. destruct skip as [|skip]; [|apply IH].
  rewrite prefix_nl_nl.
  destruct (Ascii.eqb c nl_char && head_nl t) eqn:E.
  - rewrite no_blank_line_paragraph_mark. apply IH.
  - cbn [no_blank_line]. rewrite IH, andb_true_r. apply negb_true_iff.
    destruct (head_nl (replace_from (nl ++ nl) "</p><p>" 0 t)) eqn:Eh;
      [|apply andb_false_r].
    apply replace_head_nl in Eh; [|reflexivity|discriminate].
    now rewrite Eh in E.
Qed.

Lemma no_blank_line_close : forall s,
  no_blank_line s = true -> no_blank_line (s ++ "</p>") = true.
Proof.
  induction s as [|c t IH]; intros H; [reflexivity|].
  cbn [no_blank_line] in H. apply andb_true_iff in H. destruct H as [Hc Ht].
  cbn [String.append no_blank_line]. rewrite (IH Ht), andb_true_r.
  destruct t as [|b t]; [|exact Hc].
  cbn [String.append head_nl]. apply negb_true_iff.
  change (Ascii.eqb "<" nl_char) with false. apply andb_false_r.
Qed.

(** X9.  The HTML of a markdown text never holds two consecutive
    newlines: the last rewrite turns every blank-line break it finds
    into a paragraph boundary and leaves none behind, whatever the
    earlier rewrites produced. *)
Theorem markdown_html_no_blank_line :
  forall text : string, no_blank_line (_markdown_to_html text) = true.
Proof.
  intros text. unfold _markdown_to_html, replace.
  rewrite no_blank_line_open.
  apply no_blank_line_close, replace_no_blank_line.
Qed.

(** ** The sections of the default page are numbered *)

Lemma plot_html_not_section : forall (rt : PyRuntime) p html,
  _plot_to_html p = Ok html -> is_section_open html = false.
Proof.
  intros rt p html H. unfold _plot_to_html in H.
  destruct (String.eqb (mime_type p) "image/svg+xml");
    destruct (text_of (data p)); try discriminate;
    cbn [bind] in H; inversion H; reflexivity.
Qed.

Lemma plots_html_no_section : forall (rt : PyRuntime) items lines,
  plots_to_html (fun h => h) items = Ok lines ->
  filter is_section_open lines = [].
Proof.
  intros rt. induction items as [|p items IH]; intros lines H.
  - cbn in H. inversion H. reflexivity.
  - cbn [plots_to_html] in H.
    destruct (_plot_to_html p) as [html|e] eqn:Eh; [|discriminate].
    cbn [bind] in H.
    destruct (plots_to_html (fun h => h) items) as [later|e]; [|discriminate].
    cbn [bind] in H. inversion H; subst. cbn [filter].
    rewrite (plot_html_not_section rt p html Eh). now apply IH.
Qed.

Lemma section_parts_one_open : forall (rt : PyRuntime) i entry lines,
  section_parts i entry = Ok lines ->
  filter is_section_open lines = [section_open i].
Proof.
  intros rt i [md section_plots] lines H. unfold section_parts in H.
  destruct section_plots as [|p more].
  - cbn [bind] in H. inversion H; subst. clear H.
    destruct md as [text|]; [destruct (str_truthy text)|]; reflexivity.
  - destruct (plots_to_html (fun h => h) (p :: more)) as [imgs|e] eqn:Ei;
      [|discriminate].
    cbn [bind] in H. inversion H; subst. clear H.
    pose proof (plots_html_no_section rt _ _ Ei) as Himgs.
    destruct md as [text|]; [destruct (str_truthy text)|];
      repeat (cbn [app filter] || rewrite filter_app);
      rewrite Himgs; reflexivity.
Qed.

Lemma sections_numbered : forall (rt : PyRuntime) entries i lines,
  sections i entries = Ok lines ->
  filter is_section_open lines = map section_open (seq i (length entries)).
Proof.
  intros rt. induction entries as [|entry entries IH]; intros i lines H.
  - cbn in H. inversion H. reflexivity.
  - cbn [sections] in H.
    destruct (section_parts i entry) as [here|e] eqn:Eh; [|discriminate].
    cbn [bind] in H.
    destruct (sections (S i) entries) as [later|e] eqn:El; [|discriminate].
    cbn [bind] in H. inversion H; subst.
    rewrite filter_app, (section_parts_one_open rt i entry here Eh).
    rewrite (IH _ _ El). reflexivity.
Qed.

(** X10.  The default page has one section per pair, and the sections
    are numbered from 0 in page order: the lines that open a section
    are exactly those of section-0 up to section-(n-1), n being the
    larger of the number of markdown texts and the number of plots. *)
Theorem default_sections_numbered :
  forall (rt : PyRuntime) (fuel : nat) (now : string) (c : content)
         (parts : list string),
    all_truthy (markdown c) ->
    Nat.max (length (markdown c)) (length (plots c)) < fuel ->
    default_parts fuel now c = Some (Ok parts) ->
    filter is_section_open parts
    = map section_open
          (seq 0 (Nat.max (length (markdown c)) (length (plots c)))).
Proof.
  intros rt fuel now c parts Htruthy Hfuel H. unfold default_parts in H.
  rewrite (pair_content_spec c fuel Htruthy Hfuel) in H.
  destruct (sections 0 (pairing_spec (markdown c) (plots c))) as [body|e] eqn:Eb;
    [|discriminate].
  assert (Hparts : parts = (default_head now c ++ body ++ default_foot)%list)
    by (cbn [bind] in H; congruence).
  subst parts. clear H.
  rewrite !filter_app, (sections_numbered rt _ _ _ Eb), pairing_spec_length.
  assert (Hhead : filter is_section_open (default_head now c) = [])
    by reflexivity.
  rewrite Hhead. cbn [app]. apply app_nil_r.
Qed.

Lemma default_sections_numbered_witness :
  let c := Content "T" [Plot "image/png" (JStr "AAAA") (JObj [])]
                   ["one"; "two"; "three"] (JObj []) in
  exists parts,
    default_parts (rt := sample_runtime) 4 "now" c = Some (Ok parts)
    /\ filter is_section_open parts
       = ["        <div class='section' id='section-0'>";
          "        <div class='section' id='section-1'>";
          "        <div class='section' id='section-2'>"].
Proof.
  intros c.
  destruct (default_parts (rt := sample_runtime) 4 "now" c)
    as [[parts|e]|] eqn:E; try (vm_compute in E; discriminate).
  exists parts. split; [reflexivity|].
  exact (default_sections_numbered sample_runtime 4 "now" c parts
           ltac:(repeat constructor) ltac:(cbn; lia) E).
Defined.

(** ** The three heading rewrites together *)








(** ** The command line *)

Lemma render_fuel_irrelevant :
  forall (rt : PyRuntime) (now : string) (c : content) (template : string)
         (fuel1 fuel2 : nat),
    all_truthy (markdown c) ->
    Nat.max (length (markdown c)) (length (plots c)) < fuel1 ->
    Nat.max (length (markdown c)) (length (plots c)) < fuel2 ->
    _create_html_template fuel1 now c template
    = _create_html_template fuel2 now c template.
Proof.
  intros rt now c template fuel1 fuel2 Htruthy H1 H2.
  unfold _create_html_template.
  destruct (String.eqb template "minimal"); [reflexivity|].
  destruct (String.eqb template "grid"); [reflexivity|].
  unfold _default_template, default_parts.
  now rewrite (pair_content_spec c fuel1 Htruthy H1),
              (pair_content_spec c fuel2 Htruthy H2).
Qed.

Lemma render_returns :
  forall (rt : PyRuntime) (fuel : nat) (now : string) (c : content)
         (template : string),
    all_truthy (markdown c) ->
    Nat.max (length (markdown c)) (length (plots c)) < fuel ->
    exists r, _create_html_template fuel now c template = Some r.
Proof.
  intros rt fuel now c template Htruthy Hfuel.
  destruct (render_outcome rt fuel now c template Htruthy Hfuel) as [Hok Herr].
  destruct (forallb renderable (plots c)).
  - destruct (Hok eq_refl) as [html ->]. eauto.
  - rewrite (Herr eq_refl). eauto.
Qed.

(** X12.  The command always comes to an end, whatever the files
    hold: there is an amount of fuel from which on a run returns, and
    returns the same events. *)
Theorem main_terminates :
  forall (rt : PyRuntime) (w : world) (now : string) (a : args),
    exists (fuel : nat) (trace : list event),
      forall fuel' : nat, fuel <= fuel' -> main w fuel' now a = Some trace.
Proof.
  intros rt w now a. unfold main.
  destruct (negb (path_exists w (arg_notebook a))); [now exists 0; eauto|].
  destruct (parse_notebook (load_json w (arg_notebook a))) as [c|e] eqn:Hparse;
    [|now exists 0; eauto].
  pose proof (not_blank_truthy _ (parse_markdown_not_blank rt _ c Hparse))
    as Htruthy.
  set (bound := S (Nat.max (length (markdown c)) (length (plots c)))).
  destruct (render_returns rt bound now c (arg_template a) Htruthy
              ltac:(unfold bound; lia)) as [r Hr].
  assert (Hsame : forall fuel', bound <= fuel' ->
            _create_html_template fuel' now c (arg_template a) = Some r).
  { intros fuel' Hle. rewrite <- Hr.
    apply render_fuel_irrelevant; [exact Htruthy| |]; unfold bound in *; lia. }
  unfold generate_html_dashboard.
  destruct r as [html|e];
    [destruct (open_for_write w (arg_output a)) as [e|] eqn:Hopen|];
    exists bound; eexists; intros fuel' Hle;
    rewrite (Hsame fuel' Hle); reflexivity.
Qed.

Lemma writes_app : forall t1 t2, writes (t1 ++ t2) = (writes t1 ++ writes t2)%list.
Proof. intros t1 t2. unfold writes. apply flat_map_app. Qed.



(** ** The flat layouts show every entry once *)

Lemma prefix_append : forall a b, String.prefix a (a ++ b) = true.
Proof.
  induction a as [|x a IH]; intros b; [apply prefix_empty|].
  cbn. destruct (Ascii.ascii_dec x x); [apply IH|congruence].
Qed.

Lemma Ok_inj : forall (A : Type) (x y : A), Ok x = Ok y -> x = y.
Proof. intros A x y H. congruence. Qed.

Lemma plots_to_html_wrapped : forall (rt : PyRuntime) wrap items lines,
  plots_to_html wrap items = Ok lines ->
  exists htmls, lines = map wrap htmls /\ length htmls = length items.
Proof.
  intros rt wrap. induction items as [|p items IH]; intros lines H.
  - cbn in H. inversion H. now exists [].
  - cbn [plots_to_html] in H.
    destruct (_plot_to_html p) as [html|e]; [|discriminate].
    cbn [bind] in H.
    destruct (plots_to_html wrap items) as [later|e]; [|discriminate].
    cbn [bind] in H. inversion H; subst.
    destruct (IH later eq_refl) as (htmls & -> & Hlen).
    exists (html :: htmls). cbn. now rewrite Hlen.
Qed.

Lemma filter_map_all : forall (A : Type) (P : string -> bool) (f : A -> string) l,
  (forall x, P (f x) = true) -> filter P (map f l) = map f l.
Proof.
  intros A P f l H. induction l as [|x l IH]; [reflexivity|].
  cbn. now rewrite H, IH.
Qed.

Lemma filter_map_none : forall (A : Type) (P : string -> bool) (f : A -> string) l,
  (forall x, P (f x) = false) -> filter P (map f l) = [].
Proof.
  intros A P f l H. induction l as [|x l IH]; [reflexivity|].
  cbn. now rewrite H, IH.
Qed.

(** X14.  The minimal page shows one content div per markdown text
    (blank ones included) and one plot div per plot; the grid page
    shows one text tile per markdown text that is not blank and one
    plot tile per plot. *)
Theorem flat_layouts_show_every_entry :
  forall (rt : PyRuntime) (c : content),
    (forall parts,
        minimal_parts c = Ok parts ->
        length (filter is_content_div parts) = length (markdown c)
        /\ length (filter is_plot_div parts) = length (plots c))
    /\
    (forall parts,
        grid_parts c = Ok parts ->
        length (filter is_text_tile parts)
        = length (filter (fun md => str_truthy (strip md)) (markdown c))
        /\ length (filter is_plot_tile parts) = length (plots c)).
Proof.
  intros rt c. split; intros parts H.
  - unfold minimal_parts in H.
    match type of H with
    | bind (plots_to_html ?w _) _ = _ =>
        destruct (plots_to_html w (plots c)) as [imgs|e] eqn:Ei;
          [|discriminate];
        destruct (plots_to_html_wrapped rt w _ _ Ei) as (htmls & -> & Hlen)
    end.
    cbn [bind] in H. apply Ok_inj in H. subst parts. clear Ei.
    assert (Hhead1 : filter is_content_div (minimal_head c) = []) by reflexivity.
    assert (Hhead2 : filter is_plot_div (minimal_head c) = []) by reflexivity.
    rewrite !filter_app, Hhead1, Hhead2.
    rewrite (filter_map_all _ is_content_div) by (intros; apply prefix_append).
    rewrite (filter_map_none _ is_content_div) by reflexivity.
    rewrite (filter_map_none _ is_plot_div) by reflexivity.
    rewrite (filter_map_all _ is_plot_div) by (intros; apply prefix_append).
    cbn [app filter]. rewrite !app_nil_r, !length_map. now split.
  - unfold grid_parts in H.
    match type of H with
    | bind (plots_to_html ?w _) _ = _ =>
        destruct (plots_to_html w (plots c)) as [imgs|e] eqn:Ei;
          [|discriminate];
        destruct (plots_to_html_wrapped rt w _ _ Ei) as (htmls & -> & Hlen)
    end.
    cbn [bind] in H. apply Ok_inj in H. subst parts. clear Ei.
    assert (Hhead1 : filter is_text_tile (grid_head c) = []) by reflexivity.
    assert (Hhead2 : filter is_plot_tile (grid_head c) = []) by reflexivity.
    rewrite !filter_app, Hhead1, Hhead2.
    rewrite (filter_map_all _ is_text_tile) by (intros; apply prefix_append).
    rewrite (filter_map_none _ is_text_tile) by reflexivity.
    rewrite (filter_map_none _ is_plot_tile) by reflexivity.
    rewrite (filter_map_all _ is_plot_tile) by (intros; apply prefix_append).
    cbn [app filter]. rewrite !app_nil_r, !length_map. now split.
Qed.

Lemma flat_layouts_show_every_entry_witness :
  let c := Content "T" [Plot "image/png" (JStr "AAAA") (JObj [])]
                   ["one"; "   "; "two"] (JObj []) in
  exists parts,
    grid_parts (rt := sample_runtime) c = Ok parts
    /\ length (filter is_text_tile parts) = 2
    /\ length (filter is_plot_tile parts) = 1.
Proof.
  intros c.
  assert (E : exists parts, grid_parts (rt := sample_runtime) c = Ok parts)
    by (vm_compute; eexists; reflexivity).
  destruct E as [parts E]. exists parts. split; [exact E|].
  exact (proj2 (flat_layouts_show_every_entry sample_runtime c) parts E).
Defined.

(** ** A cells field of the wrong kind *)

(** X15.  What parsing makes of a cells field that is not a list: a
    scalar (null, a boolean, a number) fails with TypeError, and so
    does a non-empty string or a non-empty mapping, whose characters
    or keys are taken for cells; an empty string and an empty mapping
    are read as no cells at all. *)
Theorem cells_field_of_wrong_kind :
  forall (rt : PyRuntime) (fields : list (string * json)) (v : json),
    dict_get "cells" fields = Some v ->
    (is_scalar v = true ->
     parse_notebook (Loaded (JObj fields)) = Err TypeError)
    /\ (forall c t, v = JStr (String c t) ->
         parse_notebook (Loaded (JObj fields)) = Err TypeError)
    /\ (forall k x more, v = JObj ((k, x) :: more) ->
         parse_notebook (Loaded (JObj fields)) = Err TypeError)
    /\ (v = JStr EmptyString \/ v = JObj [] ->
         parse_notebook (Loaded (JObj fields)) = Ok (empty_record fields)).
Proof.
  intros rt fields v Hget.
  assert (Hcells : py_get (JObj fields) "cells" (JArr []) = Ok v)
    by (cbn [py_get]; now rewrite Hget).
  repeat split.
  - intros Hv. cbn [parse_notebook]. unfold _extract_title. rewrite Hcells.
    destruct v; try discriminate; reflexivity.
  - intros c t ->. cbn [parse_notebook]. unfold _extract_title.
    rewrite Hcells. reflexivity.
  - intros k x more ->. cbn [parse_notebook]. unfold _extract_title.
    rewrite Hcells. reflexivity.
  - intros Hv. cbn [parse_notebook]. unfold _extract_title, empty_record.
    rewrite Hcells.
    destruct Hv as [-> | ->]; cbn [bind py_iter chars_of map title_loop py_get];
      destruct (dict_get "metadata" fields); reflexivity.
Qed.

Lemma cells_field_of_wrong_kind_witness :
  let fields := [("cells", JObj [("0", JObj [("cell_type", JStr "markdown")])])] in
  parse_notebook (rt := sample_runtime) (Loaded (JObj fields)) = Err TypeError.
Proof.
  intros fields.
  exact (proj1 (proj2 (proj2 (cells_field_of_wrong_kind sample_runtime fields
                                _ eq_refl)))
           "0" (JObj [("cell_type", JStr "markdown")]) [] eq_refl).
Defined.

(** ** A markdown source that is not text *)

Lemma title_loop_app : forall before views rest,
  Forall2 reads_as before views ->
  title_loop (before ++ rest) =
  if title_found views then Ok (title_of views) else title_loop rest.
Proof.
  intros before views rest H.
  induction H as [|cell view before views Hview _ IH]; [reflexivity|].
  destruct Hview as (fields & cell_type & -> & Htype & Hview).
  cbn [app title_loop py_getitem py_get]. rewrite Htype. cbn [bind].
  destruct view as [source|].
  - destruct Hview as [Hmd Hsrc]. rewrite Hmd.
    assert (Hget : (src <- match dict_get "source" fields with
                           | Some v => Ok v
                           | None => Ok (JArr [])
                           end ;; py_join src) = Ok source)
      by (destruct (dict_get "source" fields); exact Hsrc).
    cbn [title_found title_of existsb].
    destruct (dict_get "source" fields) as [src|]; cbn [or_default bind] in *;
      rewrite Hsrc; cbn [bind];
      destruct (re_search title_re source); try reflexivity; exact IH.
  - rewrite Hview. exact IH.
Qed.

Lemma cells_loop_app :
  forall (rt : PyRuntime) before rest found_plots found_markdown
         out_plots out_markdown,
    cells_loop before found_plots found_markdown = Ok (out_plots, out_markdown) ->
    cells_loop (before ++ rest) found_plots found_markdown
    = cells_loop rest out_plots out_markdown.
Proof.
  intros rt before rest. induction before as [|cell before IH];
    intros found_plots found_markdown out_plots out_markdown H.
  - cbn in H. inversion H. reflexivity.
  - cbn [app cells_loop] in *.
    destruct (py_getitem cell "cell_type") as [cell_type|e]; [|discriminate].
    cbn [bind] in *.
    destruct (json_is_str cell_type "markdown").
    + destruct (_process_markdown_cell cell) as [text|e]; [|discriminate].
      cbn [bind] in *. destruct (str_truthy (strip text)); now apply IH.
    + destruct (json_is_str cell_type "code").
      * destruct (_extract_plots_from_cell cell) as [found|e]; [|discriminate].
        cbn [bind] in *. now apply IH.
      * now apply IH.
Qed.

(** X16.  A markdown cell whose source is a scalar (null, a boolean,
    a number) is treated in two ways.  The title scan cannot join it
    and fails with TypeError; but the scan stops at the first heading,
    so when an earlier cell holds a heading the scan never reaches the
    cell, parsing succeeds, and the loop over the cells keeps the text
    that str() gives for the value. *)
Theorem scalar_source_fails_or_is_kept :
  forall (rt : PyRuntime) (top bad : list (string * json))
         (before : list json) (views : list cell_view) (v : json),
    dict_get "cells" top = Some (JArr (before ++ [JObj bad])) ->
    dict_get "cell_type" bad = Some (JStr "markdown") ->
    dict_get "source" bad = Some v ->
    is_scalar v = true ->
    Forall cell_shaped before ->
    Forall2 reads_as before views ->
    (title_found views = false ->
     parse_notebook (Loaded (JObj top)) = Err TypeError)
    /\ (title_found views = true ->
        parse_notebook (Loaded (JObj top))
        = Ok (Content (title_of views)
                      (flat_map cell_plots before)
                      (kept_texts views
                       ++ (if str_truthy (strip (py_repr v))
                           then [py_repr v] else []))
                      (or_default (JObj []) (dict_get "metadata" top)))).
Proof.
  intros rt top bad before views v Hcells Htype Hsrc Hv Hshape Hviews.
  assert (Htitle_bad : title_loop [JObj bad] = Err TypeError).
  { cbn [title_loop py_getitem py_get]. rewrite Htype. cbn [bind].
    change (json_is_str (JStr "markdown") "markdown") with true. cbv iota.
    rewrite Hsrc. cbn [bind]. destruct v; try discriminate; reflexivity. }
  assert (Htext : _process_markdown_cell (JObj bad) = Ok (py_repr v)).
  { unfold _process_markdown_cell. cbn [py_get]. rewrite Hsrc. cbn [bind].
    destruct v; try discriminate; reflexivity. }
  assert (Hget : py_get (JObj top) "cells" (JArr [])
                 = Ok (JArr (before ++ [JObj bad])))
    by (cbn [py_get]; now rewrite Hcells).
  split; intros Hfound; cbn [parse_notebook]; unfold _extract_title;
    rewrite Hget; cbn [bind py_iter];
    rewrite (title_loop_app before views [JObj bad] Hviews), Hfound.
  - now rewrite Htitle_bad.
  - cbn [bind].
    rewrite (cells_loop_app rt before [JObj bad] [] [] _ _
               (cells_loop_shaped_spec rt before views Hviews Hshape [] [])).
    cbn [app cells_loop py_getitem]. rewrite Htype. cbn [bind].
    change (json_is_str (JStr "markdown") "markdown") with true. cbv iota.
    rewrite Htext. cbn [bind py_get].
    destruct (dict_get "metadata" top);
      destruct (str_truthy (strip (py_repr v)));
      cbn [bind cells_loop fst snd or_default]; rewrite ?app_nil_r;
      reflexivity.
Qed.

Lemma scalar_source_fails_or_is_kept_witness :
  let heading := JObj [("cell_type", JStr "markdown"); ("source", JStr "# T")] in
  let bad := [("cell_type", JStr "markdown"); ("source", JNum "5")] in
  parse_notebook (rt := sample_runtime)
    (Loaded (JObj [("cells", JArr [JObj bad])])) = Err TypeError
  /\ parse_notebook (rt := sample_runtime)
       (Loaded (JObj [("cells", JArr [heading; JObj bad])]))
     = Ok (Content "T" [] ["# T"; "<object>"] (JObj [])).
Proof.
  intros heading bad. split.
  - apply (proj1 (scalar_source_fails_or_is_kept sample_runtime
                    [("cells", JArr [JObj bad])] bad [] [] (JNum "5")
                    eq_refl eq_refl eq_refl eq_refl
                    (Forall_nil _) (Forall2_nil _))).
    reflexivity.
  - assert (Hshape : Forall cell_shaped [heading]).
    { repeat constructor. eexists. split; [reflexivity|]. left.
      split; [reflexivity|]. right. left. eexists. reflexivity. }
    assert (Hviews : Forall2 reads_as [heading] [MarkdownCell "# T"]).
    { repeat constructor. eexists _, _. split; [reflexivity|].
      split; [reflexivity|]. split; reflexivity. }
    apply (proj2 (scalar_source_fails_or_is_kept sample_runtime
                    [("cells", JArr [heading; JObj bad])] bad [heading]
                    [MarkdownCell "# T"] (JNum "5")
                    eq_refl eq_refl eq_refl eq_refl Hshape Hviews)).
    reflexivity.
Defined.
